(** * Instagram follow/unfollow bot: a shallow embedding and its properties

    The development follows [instagram-follow-unfollow-bot.py].  Python
    strings are Rocq strings (characters are the code points below 256),
    the [rec] dictionary of [process_user] is a record, sets are [gset],
    durations in seconds are rationals, and everything that touches the
    browser, the clock or the random generator runs in a
    state-and-exception monad over an abstract world whose primitive
    operations are the Selenium calls the script makes.  Exceptions are
    the subclasses of [Exception]; the log file is always writable. *)

From Stdlib Require Import String Ascii ZArith QArith Qminmax Qpower Lia.
From stdpp Require Import gmap strings list.

Local Open Scope Z_scope.

(** ** Python string helpers *)

Module PyStr.

(** [str.isspace] on one character, restricted to code points below 256:
    TAB..CR, FS..US, SPACE, NEL and NBSP. *)
Definition is_space (c : ascii) : bool :=
  let n := N_of_ascii c in
  (((9 <=? n) && (n <=? 13)) || ((28 <=? n) && (n <=? 32))
   || (n =? 133) || (n =? 160))%N.

Fixpoint lstrip_by (p : ascii -> bool) (s : string) : string :=
  match s with
  | EmptyString => EmptyString
  | String c r => if p c then lstrip_by p r else s
  end.

Fixpoint rstrip_by (p : ascii -> bool) (s : string) : string :=
  match s with
  | EmptyString => EmptyString
  | String c r =>
      match rstrip_by p r with
      | EmptyString => if p c then EmptyString else String c EmptyString
      | r' => String c r'
      end
  end.

(** [s.strip()] *)
Definition strip (s : string) : string :=
  rstrip_by is_space (lstrip_by is_space s).

(** [s.lstrip("@")] *)
Definition lstrip_at (s : string) : string :=
  lstrip_by (Ascii.eqb "@"%char) s.

Definition lower_char (c : ascii) : ascii :=
  let n := N_of_ascii c in
  if (((65 <=? n) && (n <=? 90))
      || ((192 <=? n) && (n <=? 222) && negb (n =? 215)))%N
  then ascii_of_N (n + 32) else c.

(** [s.lower()] *)
Fixpoint lower (s : string) : string :=
  match s with
  | EmptyString => EmptyString
  | String c r => String (lower_char c) (lower r)
  end.

(** [sub in s] *)
Fixpoint contains (sub s : string) : bool :=
  String.prefix sub s
  || match s with
     | EmptyString => false
     | String _ r => contains sub r
     end.

(** truthiness of a string: [if s] *)
Definition truthy (s : string) : bool := negb (String.eqb s "").

End PyStr.

(** ** Exceptions and the state-and-exception monad *)

Inductive exn : Type :=
| TimeoutException
| NoSuchElementException
| StaleElementReferenceException
| WebDriverException (msg : string)
| AttributeError (msg : string)
| TypeError (msg : string)
| ValueError (msg : string)
| RecursionError (msg : string)
| OverflowError (msg : string)
| JSONDecodeError (msg : string)
| KeyError (msg : string)
| CsvError (msg : string).

(** [repr(e)] *)
Definition repr (e : exn) : string :=
  match e with
  | TimeoutException => "TimeoutException()"
  | NoSuchElementException => "NoSuchElementException()"
  | StaleElementReferenceException => "StaleElementReferenceException()"
  | WebDriverException m => "WebDriverException('" +:+ m +:+ "')"
  | AttributeError m => "AttributeError('" +:+ m +:+ "')"
  | TypeError m => "TypeError('" +:+ m +:+ "')"
  | ValueError m => "ValueError('" +:+ m +:+ "')"
  | RecursionError m => "RecursionError('" +:+ m +:+ "')"
  | OverflowError m => "OverflowError('" +:+ m +:+ "')"
  | JSONDecodeError m => "JSONDecodeError('" +:+ m +:+ "')"
  | KeyError m => "KeyError('" +:+ m +:+ "')"
  | CsvError m => "Error('" +:+ m +:+ "')"
  end.

Inductive result (A : Type) : Type :=
| Ok (a : A)
| Raise (e : exn).
Arguments Ok {A} a.
Arguments Raise {A} e.

Definition M (S A : Type) : Type := S -> result A * S.

Definition ret {S A} (a : A) : M S A := fun s => (Ok a, s).

Definition raise {S A} (e : exn) : M S A := fun s => (Raise e, s).

Definition bind {S A B} (m : M S A) (k : A -> M S B) : M S B :=
  fun s =>
    match m s with
    | (Ok a, s') => k a s'
    | (Raise e, s') => (Raise e, s')
    end.

(** [try: m  except Exception as e: h e] *)
Definition try_except {S A} (m : M S A) (h : exn -> M S A) : M S A :=
  fun s =>
    match m s with
    | (Ok a, s') => (Ok a, s')
    | (Raise e, s') => h e s'
    end.

Declare Scope py_scope.
Delimit Scope py_scope with py.
Notation "x <- m ;; k" := (bind m (fun x => k))
  (at level 100, m at next level, right associativity) : py_scope.
Notation "m ;;; k" := (bind m (fun _ => k))
  (at level 100, right associativity) : py_scope.
Local Open Scope py_scope.

(** ** The runtime the script talks to

    [W] is the state of everything outside the script (browser, page,
    clock, random generator); [E] is the type of Selenium [WebElement]s. *)

Inductive By : Type := By_NAME | By_XPATH | By_CSS_SELECTOR.

Record Runtime (W E : Type) : Type := {
  (* driver.get(url) *)
  driver_get : string -> M W unit;
  (* driver.current_url *)
  driver_current_url : M W string;
  (* driver.find_element(by, sel) *)
  driver_find_element : By -> string -> M W E;
  (* driver.find_elements(by, sel) *)
  driver_find_elements : By -> string -> M W (list E);
  (* WebDriverWait(driver, t).until(EC.presence_of_element_located((by, sel))) *)
  wait_presence : Z -> By -> string -> M W E;
  (* WebDriverWait(driver, t).until(EC.element_to_be_clickable((by, sel))) *)
  wait_clickable : Z -> By -> string -> M W E;
  element_click : E -> M W unit;
  element_clear : E -> M W unit;
  element_send_keys : E -> string -> M W unit;
  element_is_displayed : E -> M W bool;
  element_text : E -> M W string;
  (* driver.quit() *)
  driver_quit : M W unit;
  (* random.uniform(a, b) *)
  random_uniform : Q -> Q -> M W Q;
  (* time.sleep(d) *)
  time_sleep : Q -> M W unit;
  (* int(time.time()) *)
  time_now : W -> Z
}.
Arguments driver_get {W E} _.
Arguments driver_current_url {W E} _.
Arguments driver_find_element {W E} _.
Arguments driver_find_elements {W E} _.
Arguments wait_presence {W E} _.
Arguments wait_clickable {W E} _.
Arguments element_click {W E} _.
Arguments element_clear {W E} _.
Arguments element_send_keys {W E} _.
Arguments element_is_displayed {W E} _.
Arguments element_text {W E} _.
Arguments driver_quit {W E} _.
Arguments random_uniform {W E} _.
Arguments time_sleep {W E} _.
Arguments time_now {W E} _.

(** ** Relationship-state prober and click helpers *)

Definition xp_follow : string :=
  "//header//button[.//div[text()='Follow'] or normalize-space()='Follow']".
Definition xp_following : string :=
  "//header//button[.//div[text()='Following'] or normalize-space()='Following']".
Definition xp_requested : string :=
  "//header//button[.//div[text()='Requested'] or normalize-space()='Requested']".
Definition xp_any : string :=
  "//header//button[normalize-space()='Follow' or normalize-space()='Following' or normalize-space()='Requested']".

Definition candidates : list string :=
  [xp_follow; xp_following; xp_requested; xp_any].

Section Browser.
Context {W E : Type} (rt : Runtime W E).

(** [jitter_sleep(min_s, max_s)] *)
Definition jitter_sleep (min_s max_s : Q) : M W unit :=
  d <- random_uniform rt min_s max_s ;;
  time_sleep rt d.

(** [backoff_sleep(attempt, base=0.8, cap=12.0)].  The delay is computed
    in floating point: for an exponent of 1024 or more the integer
    [2 ** (attempt - 1)] is too large to be converted and the product
    raises [OverflowError] before anything is drawn or slept; for an
    exponent below -1074 the power underflows to 0.0.  In between the
    delay is taken as the exact rational. *)
Definition backoff_sleep (attempt : Z) : M W unit :=
  let base := (8 # 10)%Q in
  let cap := (12 # 1)%Q in
  if 1024 <=? attempt - 1
  then raise (OverflowError "int too large to convert to float")
  else
    let power :=
      if attempt - 1 <? -1074 then 0%Q else Qpower (2 # 1) (attempt - 1) in
    let delay := Qmin cap (base * power)%Q in
    j <- random_uniform rt 0%Q (6 # 10)%Q ;;
    time_sleep rt (delay + j)%Q.

(** [next((b for b in btns if b.is_displayed()), default)] *)
Fixpoint next_displayed (btns : list E) (default : E) : M W E :=
  match btns with
  | [] => ret default
  | b :: rest =>
      d <- element_is_displayed rt b ;;
      if d then ret b else next_displayed rest default
  end.

(** The body of the [try] inside the loop of [get_follow_state];
    [Some s] stands for [return s], [None] for falling through to
    the next candidate. *)
Definition probe_body (xp : string) : M W (option string) :=
  btns <- driver_find_elements rt By_XPATH xp ;;
  match btns with
  | [] => ret None
  | b0 :: _ =>
      btn <- next_displayed btns b0 ;;
      t <- element_text rt btn ;;
      let label := PyStr.strip t in
      if String.eqb (PyStr.lower label) "follow" then ret (Some "follow")
      else if String.eqb (PyStr.lower label) "following" then ret (Some "following")
      else if String.eqb (PyStr.lower label) "requested" then ret (Some "requested")
      else ret None
  end.

Definition probe_candidate (xp : string) : M W (option string) :=
  try_except (probe_body xp) (fun _ => ret None).

Fixpoint get_follow_state_from (xps : list string) : M W string :=
  match xps with
  | [] => ret "unavailable"
  | xp :: rest =>
      r <- probe_candidate xp ;;
      match r with
      | Some s => ret s
      | None => get_follow_state_from rest
      end
  end.

Definition get_follow_state : M W string :=
  get_follow_state_from candidates.

(** [click_follow(driver)] *)
Definition click_follow : M W bool :=
  try_except
    (btn <- wait_clickable rt 8 By_XPATH xp_follow ;;
     jitter_sleep (4 # 10) (11 # 10) ;;;
     element_click rt btn ;;;
     jitter_sleep (1 # 1) (18 # 10) ;;;
     ret true)
    (fun _ => ret false).

Definition confirm_xps : list string :=
  ["//button[normalize-space()='Unfollow']";
   "//div[@role='dialog']//button[normalize-space()='Unfollow']"].

(** The [for cxp in confirm_xps] loop of [click_unfollow]: [true] is
    [return True] from inside the loop, [false] is the [return False]
    after it. *)
Fixpoint confirm_unfollow (cxps : list string) : M W bool :=
  match cxps with
  | [] => ret false
  | cxp :: rest =>
      clicked <- try_except
                   (cbtn <- wait_clickable rt 5 By_XPATH cxp ;;
                    jitter_sleep (2 # 10) (6 # 10) ;;;
                    element_click rt cbtn ;;;
                    jitter_sleep (8 # 10) (15 # 10) ;;;
                    ret true)
                   (fun _ => ret false) ;;
      if clicked then ret true else confirm_unfollow rest
  end.

(** [click_unfollow(driver)] *)
Definition click_unfollow : M W bool :=
  try_except
    (btn <- wait_clickable rt 8 By_XPATH xp_following ;;
     jitter_sleep (4 # 10) (11 # 10) ;;;
     element_click rt btn ;;;
     jitter_sleep (6 # 10) (12 # 10) ;;;
     confirm_unfollow confirm_xps)
    (fun _ => ret false).

Definition profile_url (username : string) : string :=
  "https://www.instagram.com/" +:+ username +:+ "/".

Definition xp_profile_header : string := "//header//h2 | //header//h1".

(** [open_profile(driver, username)] *)
Definition open_profile (username : string) : M W unit :=
  driver_get rt (profile_url username) ;;;
  _ <- wait_presence rt 20 By_XPATH xp_profile_header ;;
  jitter_sleep (1 # 1) (2 # 1).

(** The inner [for text in ["Not now", "Not Now"]] loop of [ig_login]. *)
Fixpoint dismiss_dialogs (texts : list string) : M W unit :=
  match texts with
  | [] => ret tt
  | text :: rest =>
      try_except
        (btn <- driver_find_element rt By_XPATH
                  ("//button[normalize-space()='" +:+ text +:+ "']") ;;
         element_click rt btn)
        (fun _ => ret tt) ;;;
      dismiss_dialogs rest
  end.

(** [for attempt in range(1, 6)] of [ig_login], over the attempts left. *)
Fixpoint login_settle (attempts : list Z) : M W unit :=
  match attempts with
  | [] => ret tt
  | attempt :: rest =>
      jitter_sleep (12 # 10) (24 # 10) ;;;
      u1 <- driver_current_url rt ;;
      home <- (if PyStr.contains "instagram.com/" u1
               then u2 <- driver_current_url rt ;;
                    ret (negb (PyStr.contains "/login" u2))
               else ret false) ;;
      if home then ret tt
      else
        dismiss_dialogs ["Not now"; "Not Now"] ;;;
        backoff_sleep attempt ;;;
        login_settle rest
  end.

(** [ig_login(driver, username, password)] *)
Definition ig_login (username password : string) : M W unit :=
  driver_get rt "https://www.instagram.com/accounts/login/" ;;;
  try_except
    (_ <- wait_presence rt 30 By_NAME "username" ;; ret tt)
    (fun _ => ret tt) ;;;
  user_el <- wait_clickable rt 30 By_NAME "username" ;;
  pass_el <- wait_clickable rt 30 By_NAME "password" ;;
  element_clear rt user_el ;;;
  element_send_keys rt user_el username ;;;
  jitter_sleep (4 # 10) (9 # 10) ;;;
  element_clear rt pass_el ;;;
  element_send_keys rt pass_el password ;;;
  jitter_sleep (3 # 10) (8 # 10) ;;;
  submit <- driver_find_element rt By_CSS_SELECTOR "button[type='submit']" ;;
  element_click rt submit ;;;
  login_settle [1; 2; 3; 4; 5].

End Browser.

(** ** Action records and the action log *)

(** The [rec] dictionary built by [process_user]; [None] is Python's
    [None]. *)
Record ActionRecord : Type := {
  rec_username : string;
  rec_mode : string;
  rec_ts : Z;
  rec_action : option string;
  rec_success : bool;
  rec_state_before : option string;
  rec_state_after : option string;
  rec_error : option string
}.

Definition set_action (v : option string) (r : ActionRecord) : ActionRecord :=
  {| rec_username := rec_username r; rec_mode := rec_mode r; rec_ts := rec_ts r;
     rec_action := v; rec_success := rec_success r;
     rec_state_before := rec_state_before r;
     rec_state_after := rec_state_after r; rec_error := rec_error r |}.

Definition set_success (v : bool) (r : ActionRecord) : ActionRecord :=
  {| rec_username := rec_username r; rec_mode := rec_mode r; rec_ts := rec_ts r;
     rec_action := rec_action r; rec_success := v;
     rec_state_before := rec_state_before r;
     rec_state_after := rec_state_after r; rec_error := rec_error r |}.

Definition set_state_before (v : option string) (r : ActionRecord) : ActionRecord :=
  {| rec_username := rec_username r; rec_mode := rec_mode r; rec_ts := rec_ts r;
     rec_action := rec_action r; rec_success := rec_success r;
     rec_state_before := v;
     rec_state_after := rec_state_after r; rec_error := rec_error r |}.

Definition set_state_after (v : option string) (r : ActionRecord) : ActionRecord :=
  {| rec_username := rec_username r; rec_mode := rec_mode r; rec_ts := rec_ts r;
     rec_action := rec_action r; rec_success := rec_success r;
     rec_state_before := rec_state_before r;
     rec_state_after := v; rec_error := rec_error r |}.

Definition set_error (v : option string) (r : ActionRecord) : ActionRecord :=
  {| rec_username := rec_username r; rec_mode := rec_mode r; rec_ts := rec_ts r;
     rec_action := rec_action r; rec_success := rec_success r;
     rec_state_before := rec_state_before r;
     rec_state_after := rec_state_after r; rec_error := v |}.

(** The state of a run: the outside world and the JSONL files written so
    far, each file being the list of records appended to it. *)
Record State (W : Type) : Type := {
  world : W;
  files : gmap string (list ActionRecord)
}.
Arguments world {W} _.
Arguments files {W} _.

(** Inside [process_user] the local dictionary [rec] is mutated in place,
    so it is carried next to the run state. *)
Definition Frame (W : Type) : Type := (State W * ActionRecord)%type.

Definition file_records {W} (st : State W) (path : string) : list ActionRecord :=
  default [] (files st !! path).

(** [write_jsonl(path, data)]: append one line to the file at [path]. *)
Definition write_jsonl {W} (path : string) (data : ActionRecord) : M (State W) unit :=
  fun st =>
    (Ok tt, {| world := world st;
               files := <[path := file_records st path ++ [data]]> (files st) |}).

Definition in_world {W A} (m : M W A) : M (State W) A :=
  fun st =>
    match m (world st) with
    | (r, w') => (r, {| world := w'; files := files st |})
    end.

Definition in_frame {W A} (m : M (State W) A) : M (Frame W) A :=
  fun fr =>
    match m (fst fr) with
    | (r, st') => (r, (st', snd fr))
    end.

Definition get_rec {W} : M (Frame W) ActionRecord :=
  fun fr => (Ok (snd fr), fr).

Definition update_rec {W} (f : ActionRecord -> ActionRecord) : M (Frame W) unit :=
  fun fr => (Ok tt, (fst fr, f (snd fr))).

(** ** Processing loop *)

(** [s in {a, b}] for string literals *)
Definition str_in (s : string) (l : list string) : bool :=
  existsb (String.eqb s) l.

(** [whitelist and username in whitelist] *)
Definition in_whitelist (whitelist : option (gset string)) (username : string) : bool :=
  match whitelist with
  | None => false
  | Some wl => bool_decide (wl ≠ ∅) && bool_decide (username ∈ wl)
  end.

Section Processing.
Context {W E : Type} (rt : Runtime W E).

Definition browse {A} (m : M W A) : M (Frame W) A := in_frame (in_world m).

(** The body of the [try] of [process_user]; the result is [true] when
    the body left through [return rec] and [false] when it ran to its
    end. *)
Definition process_user_try (username mode log_path : string)
    (whitelist : option (gset string)) : M (Frame W) bool :=
  if in_whitelist whitelist username && String.eqb mode "unfollow" then
    update_rec (set_action (Some "skip_whitelisted")) ;;;
    update_rec (set_success true) ;;;
    r <- get_rec ;;
    in_frame (write_jsonl log_path r) ;;;
    ret true
  else
    browse (open_profile rt username) ;;;
    state <- browse (get_follow_state rt) ;;
    update_rec (set_state_before (Some state)) ;;;
    (if String.eqb mode "follow" then
       if String.eqb state "follow" then
         ok <- browse (click_follow rt) ;;
         state_after <- browse (get_follow_state rt) ;;
         update_rec (set_state_after (Some state_after)) ;;;
         update_rec (set_action
                       (Some (if ok : bool then "follow"
                              else "noop_follow_click_failed"))) ;;;
         update_rec (set_success
                       (ok && str_in state_after ["following"; "requested"]))
       else if str_in state ["following"; "requested"] then
         update_rec (set_action (Some "noop_already_following")) ;;;
         update_rec (set_success true)
       else
         update_rec (set_action (Some "noop_unavailable")) ;;;
         update_rec (set_success false)
     else if String.eqb mode "unfollow" then
       if String.eqb state "following" then
         ok <- browse (click_unfollow rt) ;;
         state_after <- browse (get_follow_state rt) ;;
         update_rec (set_state_after (Some state_after)) ;;;
         update_rec (set_action
                       (Some (if ok : bool then "unfollow"
                              else "noop_unfollow_click_failed"))) ;;;
         update_rec (set_success
                       (ok && str_in state_after ["follow"; "unavailable"]))
       else if str_in state ["follow"; "requested"] then
         update_rec (set_action (Some "noop_not_following")) ;;;
         update_rec (set_success true)
       else
         update_rec (set_action (Some "noop_unavailable")) ;;;
         update_rec (set_success false)
     else
       update_rec (set_error (Some ("unknown_mode:" +:+ mode)))) ;;;
    ret false.

Definition process_user_frame (username mode log_path : string)
    (whitelist : option (gset string)) : M (Frame W) ActionRecord :=
  returned <- try_except
                (process_user_try username mode log_path whitelist)
                (fun e => update_rec (set_error (Some (repr e))) ;;; ret false) ;;
  if returned : bool then get_rec
  else
    r <- get_rec ;;
    in_frame (write_jsonl log_path r) ;;;
    ret r.

(** [process_user(driver, username, mode, log_path, whitelist)] *)
Definition process_user (username mode log_path : string)
    (whitelist : option (gset string)) : M (State W) ActionRecord :=
  fun st =>
    let rec0 :=
      {| rec_username := username; rec_mode := mode;
         rec_ts := time_now rt (world st);
         rec_action := None; rec_success := false;
         rec_state_before := None; rec_state_after := None;
         rec_error := None |} in
    match process_user_frame username mode log_path whitelist (st, rec0) with
    | (r, fr) => (r, fst fr)
    end.

(** [rec.get("action") not in {"noop_already_following", "noop_not_following"}] *)
Definition counts_toward_max (r : ActionRecord) : bool :=
  match rec_action r with
  | Some a => negb (str_in a ["noop_already_following"; "noop_not_following"])
  | None => true
  end.

(** The [for u in usernames] loop of [main]; the result is the final
    value of [actions_done]. *)
Fixpoint main_loop (mode log_path : string) (whitelist : option (gset string))
    (max_actions : Z) (min_wait max_wait : Q)
    (usernames : list string) (actions_done : Z) : M (State W) Z :=
  match usernames with
  | [] => ret actions_done
  | u :: rest =>
      if actions_done >=? max_actions then ret actions_done
      else
        r <- process_user u mode log_path whitelist ;;
        let actions_done' :=
          actions_done + (if counts_toward_max r then 1 else 0) in
        in_world (jitter_sleep rt min_wait max_wait) ;;;
        main_loop mode log_path whitelist max_actions min_wait max_wait
          rest actions_done'
  end.

(** [try: body finally: fin] *)
Definition try_finally {S A} (body : M S A) (fin : M S unit) : M S A :=
  fun s =>
    match body s with
    | (r, s') =>
        match fin s' with
        | (Ok _, s'') => (r, s'')
        | (Raise e, s'') => (Raise e, s'')
        end
    end.

(** The command-line arguments of [main] that the session uses. *)
Record Args : Type := {
  args_mode : string;
  args_max_actions : Z;
  args_min_wait : Q;
  args_max_wait : Q;
  args_username : string;
  args_password : string;
  args_log_dir : string
}.

(** [Path(args.log_dir) / "actions.jsonl"] *)
Definition log_path_of (args : Args) : string :=
  args_log_dir args +:+ "/actions.jsonl".

(** What the final [print] shows: the number after [Processed=] and the
    path after [Logs=]. *)
Record Summary : Type := {
  printed_processed : Z;
  printed_logs : string
}.

(** [main] from the [try] that follows [build_driver] to its end, for
    the resolved [usernames] and [whitelist_set]; the result is what the
    final line prints. *)
Definition main_session (args : Args) (usernames : list string)
    (whitelist_set : option (gset string)) : M (State W) Summary :=
  let log_path := log_path_of args in
  try_finally
    (in_world (ig_login rt (args_username args) (args_password args)) ;;;
     _ <- main_loop (args_mode args) log_path whitelist_set
            (args_max_actions args) (args_min_wait args) (args_max_wait args)
            usernames 0 ;;
     ret {| printed_processed :=
              Z.min (args_max_actions args) (Z.of_nat (length usernames));
            printed_logs := log_path |})
    (in_world (try_except (driver_quit rt) (fun _ => ret tt))).

End Processing.

(** ** Input resolution *)

(** A [Path] as [read_usernames] sees it: whether it exists, its suffix,
    and its decoded text (newlines already translated to LF). *)
Record PathView : Type := {
  path_exists : bool;
  path_suffix : string;
  path_text : string
}.

Definition LF : ascii := ascii_of_nat 10.

(** [for line in f]: the lines of a text, each with its terminator. *)
Fixpoint file_lines (s : string) : list string :=
  match s with
  | EmptyString => []
  | String c r =>
      if Ascii.eqb c LF then String c EmptyString :: file_lines r
      else match file_lines r with
           | [] => [String c EmptyString]
           | l :: ls => String c l :: ls
           end
  end.

(** The [for row in reader] loop of the CSV branch. *)
Fixpoint csv_entries (rows : list (list string)) (out : list string) : list string :=
  match rows with
  | [] => out
  | [] :: rest => csv_entries rest out
  | (cell :: _) :: rest =>
      csv_entries rest (out ++ [PyStr.lstrip_at (PyStr.strip cell)])
  end.

(** The [for line in f] loop of the plain-text branch. *)
Fixpoint txt_entries (lines : list string) (out : list string) : list string :=
  match lines with
  | [] => out
  | line :: rest =>
      let line := PyStr.strip line in
      if PyStr.truthy line
      then txt_entries rest (out ++ [PyStr.lstrip_at line])
      else txt_entries rest out
  end.

(** The order-preserving deduplication loop over [seen] and [uniq]. *)
Fixpoint dedup_loop (out : list string) (seen : gset string) (uniq : list string)
    : list string :=
  match out with
  | [] => uniq
  | u :: rest =>
      if PyStr.truthy u && bool_decide (u ∉ seen)
      then dedup_loop rest ({[u]} ∪ seen) (uniq ++ [u])
      else dedup_loop rest seen uniq
  end.

Section ReadUsernames.
(** [csv.Sniffer().sniff] followed by [csv.reader] over the whole text:
    the rows of the file, or the [csv.Error] of a failed sniff. *)
Variable csv_rows : string -> result (list (list string)).

(** [read_usernames(path)] *)
Definition read_usernames (path : PathView) : result (list string) :=
  if negb (path_exists path) then Ok []
  else
    let collected :=
      if str_in (PyStr.lower (path_suffix path)) [".csv"; ".tsv"] then
        match csv_rows (path_text path) with
        | Ok rows => Ok (csv_entries rows [])
        | Raise e => Raise e
        end
      else Ok (txt_entries (file_lines (path_text path)) [])
    in
    match collected with
    | Ok out => Ok (dedup_loop out ∅ [])
    | Raise e => Raise e
    end.
End ReadUsernames.

(** ** Reading the action log back *)

(** The Python value [json.loads] returns for one line: [None], a bool, a
    (finite) number, a string, a list or a dict. *)
#[local] Set Warnings "-register-all".
Inductive json : Type :=
| JNull
| JBool (b : bool)
| JNum (q : Q)
| JStr (s : string)
| JArr (items : list json)
| JObj (members : list (string * json)).

Module PyVal.

(** [bool(v)] *)
Definition truthy (v : json) : bool :=
  match v with
  | JNull => false
  | JBool b => b
  | JNum q => negb (Qeq_bool q 0)
  | JStr s => PyStr.truthy s
  | JArr items => match items with [] => false | _ => true end
  | JObj members => match members with [] => false | _ => true end
  end.

(** [d.get(k)] on the dict built from the members in file order: a
    repeated key keeps its last value. *)
Fixpoint get (members : list (string * json)) (k : string) : option json :=
  match members with
  | [] => None
  | (k', v) :: rest =>
      match get rest k with
      | Some v' => Some v'
      | None => if String.eqb k' k then Some v else None
      end
  end.

(** Whether a value can be a dict key. *)
Definition hashable (v : json) : bool :=
  match v with
  | JArr _ | JObj _ => false
  | _ => true
  end.

Definition as_number (v : json) : option Q :=
  match v with
  | JBool b => Some (if b then 1 else 0)%Q
  | JNum q => Some q
  | _ => None
  end.

(** [a == b] between hashable values: strings by content, bools and
    numbers by numeric value. *)
Definition key_eqb (a b : json) : bool :=
  match a, b with
  | JNull, JNull => true
  | JStr s, JStr t => String.eqb s t
  | _, _ =>
      match as_number a, as_number b with
      | Some x, Some y => Qeq_bool x y
      | _, _ => false
      end
  end.

(** [list(dict.fromkeys(xs))], with [keys] the keys inserted so far. *)
Fixpoint fromkeys (xs : list json) (keys : list json) : result (list json) :=
  match xs with
  | [] => Ok keys
  | x :: rest =>
      if hashable x then
        if existsb (key_eqb x) keys then fromkeys rest keys
        else fromkeys rest (keys ++ [x])
      else Raise (TypeError "unhashable type")
  end.

(** [l[start:]] *)
Definition slice_from {A} (start : Z) (l : list A) : list A :=
  let n := Z.of_nat (length l) in
  let i := if start <? 0 then Z.max 0 (n + start) else Z.min start n in
  drop (Z.to_nat i) l.

End PyVal.

Section LastFollowed.
(** [json.loads(line)]: the decoded value or the exception raised. *)
Variable json_loads : string -> result json.

(** [rec.get("action") == "follow" and rec.get("success") is True
     and rec.get("username")] on a dict. *)
Definition is_followed (members : list (string * json)) : bool :=
  match PyVal.get members "action" with
  | Some (JStr a) => String.eqb a "follow"
  | _ => false
  end
  && match PyVal.get members "success" with
     | Some (JBool true) => true
     | _ => false
     end
  && match PyVal.get members "username" with
     | Some v => PyVal.truthy v
     | None => false
     end.

(** The [for line in f] loop of [load_last_followed]. *)
Fixpoint scan_log (lines : list string) (followed : list json)
    : result (list json) :=
  match lines with
  | [] => Ok followed
  | line :: rest =>
      match json_loads line with
      | Raise (JSONDecodeError _) => scan_log rest followed
      | Raise e => Raise e
      | Ok (JObj members) =>
          if is_followed members then
            match PyVal.get members "username" with
            | Some v => scan_log rest (followed ++ [v])
            | None => Raise (KeyError "username")
            end
          else scan_log rest followed
      | Ok _ => Raise (AttributeError "object has no attribute 'get'")
      end
  end.

(** [if limit] for [limit : Optional[int]] *)
Definition limit_truthy (limit : option Z) : bool :=
  match limit with
  | Some n => negb (n =? 0)
  | None => false
  end.

(** [load_last_followed(log_path, limit)]; [log] is [None] when the
    file does not exist, otherwise its lines. *)
Definition load_last_followed (log : option (list string)) (limit : option Z)
    : result (list json) :=
  match log with
  | None => Ok []
  | Some lines =>
      match scan_log lines [] with
      | Raise e => Raise e
      | Ok followed =>
          match limit with
          | Some n =>
              if negb (n =? 0) then
                match PyVal.fromkeys followed [] with
                | Ok keys => Ok (PyVal.slice_from (- n) keys)
                | Raise e => Raise e
                end
              else PyVal.fromkeys followed []
          | None => PyVal.fromkeys followed []
          end
      end
  end.

End LastFollowed.

(** ** A simulated site

    A small deterministic runtime used to run the script on concrete
    inputs: every profile page shows a list of call-to-action buttons in
    its header, clicking "Follow" turns the button into "Following",
    clicking "Following" opens a confirmation dialog and confirming turns
    the button back into "Follow". *)

Module Sim.

Inductive elem : Type :=
| Header
| UserField
| PassField
| SubmitBtn
| ConfirmBtn
| Cta (label : string) (visible : bool).

Record web : Type := {
  sim_url : string;
  (* whether the login page renders its form *)
  sim_login_form : bool;
  (* header buttons of each profile page, keyed by URL *)
  sim_headers : list (string * list (string * bool));
  (* whether elements ever become clickable *)
  sim_clickable : bool;
  (* whether the unfollow confirmation dialog is open *)
  sim_dialog : bool;
  (* whether the header is being re-rendered, so that every element
     handle is stale *)
  sim_stale : bool;
  sim_clock : Z
}.

Definition with_url (u : string) (w : web) : web :=
  {| sim_url := u; sim_login_form := sim_login_form w;
     sim_headers := sim_headers w; sim_clickable := sim_clickable w;
     sim_dialog := sim_dialog w; sim_stale := sim_stale w;
     sim_clock := sim_clock w |}.

Definition with_headers (h : list (string * list (string * bool))) (d : bool)
    (w : web) : web :=
  {| sim_url := sim_url w; sim_login_form := sim_login_form w;
     sim_headers := h; sim_clickable := sim_clickable w;
     sim_dialog := d; sim_stale := sim_stale w; sim_clock := sim_clock w |}.

Fixpoint lookup (k : string) (h : list (string * list (string * bool)))
    : option (list (string * bool)) :=
  match h with
  | [] => None
  | (k', v) :: rest => if String.eqb k k' then Some v else lookup k rest
  end.

Definition header_of (w : web) : list (string * bool) :=
  default [] (lookup (sim_url w) (sim_headers w)).

(** Which button labels an XPath of the script selects. *)
Definition selects (xp label : string) : bool :=
  if String.eqb xp xp_follow then String.eqb label "Follow"
  else if String.eqb xp xp_following then String.eqb label "Following"
  else if String.eqb xp xp_requested then String.eqb label "Requested"
  else if String.eqb xp xp_any
       then str_in label ["Follow"; "Following"; "Requested"]
  else false.

Definition matching (xp : string) (w : web) : list elem :=
  map (fun b => Cta (fst b) (snd b))
      (List.filter (fun b => selects xp (fst b)) (header_of w)).

(** Replace the label [old] by [new] on the current page. *)
Definition relabel (old new : string) (d : bool) (w : web) : web :=
  with_headers
    (map (fun kv =>
            if String.eqb (fst kv) (sim_url w)
            then (fst kv,
                  map (fun b => if String.eqb (fst b) old
                                then (new, snd b) else b) (snd kv))
            else kv)
         (sim_headers w))
    d w.

Definition located (by_ : By) (sel : string) (w : web) : option elem :=
  match by_ with
  | By_NAME =>
      if sim_login_form w then
        if String.eqb sel "username" then Some UserField
        else if String.eqb sel "password" then Some PassField
        else None
      else None
  | By_CSS_SELECTOR =>
      if sim_login_form w && String.eqb sel "button[type='submit']"
      then Some SubmitBtn else None
  | By_XPATH =>
      if String.eqb sel xp_profile_header then
        match lookup (sim_url w) (sim_headers w) with
        | Some _ => Some Header
        | None => None
        end
      else if str_in sel confirm_xps then
        if sim_dialog w then Some ConfirmBtn else None
      else
        match List.filter (fun e => match e with
                                    | Cta _ v => v
                                    | _ => false
                                    end) (matching sel w) with
        | e :: _ => Some e
        | [] => None
        end
  end.

Definition click (e : elem) (w : web) : web :=
  match e with
  | SubmitBtn => with_url "https://www.instagram.com/" w
  | ConfirmBtn => relabel "Following" "Follow" false w
  | Cta label _ =>
      if String.eqb label "Follow" then relabel "Follow" "Following" false w
      else if String.eqb label "Following" then with_headers (sim_headers w) true w
      else w
  | _ => w
  end.

Definition runtime : Runtime web elem := {|
  driver_get := fun u w => (Ok tt, with_url u w);
  driver_current_url := fun w => (Ok (sim_url w), w);
  driver_find_element := fun by_ sel w =>
    match located by_ sel w with
    | Some e => (Ok e, w)
    | None => (Raise NoSuchElementException, w)
    end;
  driver_find_elements := fun by_ sel w =>
    match by_ with
    | By_XPATH => (Ok (matching sel w), w)
    | _ => (Ok [], w)
    end;
  wait_presence := fun _ by_ sel w =>
    match located by_ sel w with
    | Some e => (Ok e, w)
    | None => (Raise TimeoutException, w)
    end;
  wait_clickable := fun _ by_ sel w =>
    if sim_clickable w then
      match located by_ sel w with
      | Some e => (Ok e, w)
      | None => (Raise TimeoutException, w)
      end
    else (Raise TimeoutException, w);
  element_click := fun e w => (Ok tt, click e w);
  element_clear := fun _ w => (Ok tt, w);
  element_send_keys := fun _ _ w => (Ok tt, w);
  element_is_displayed := fun e w =>
    if sim_stale w then (Raise StaleElementReferenceException, w)
    else (Ok match e with Cta _ v => v | _ => true end, w);
  element_text := fun e w =>
    if sim_stale w then (Raise StaleElementReferenceException, w)
    else (Ok match e with Cta l v => if v then l else "" | _ => "" end, w);
  driver_quit := fun w => (Ok tt, w);
  random_uniform := fun a _ w => (Ok a, w);
  time_sleep := fun d w =>
    if Qle_bool 0 d then (Ok tt, w)
    else (Raise (ValueError "sleep length must be non-negative"), w);
  time_now := sim_clock
|}.

(** A site with four profiles, one in each relationship state. *)
Definition site (clickable : bool) : web :=
  {| sim_url := "about:blank";
     sim_login_form := true;
     sim_headers :=
       [(profile_url "alice", [("Follow", true)]);
        (profile_url "bob", [("Following", true)]);
        (profile_url "carol", [("Requested", true)]);
        (profile_url "dave", [("Message", true)])];
     sim_clickable := clickable;
     sim_dialog := false;
     sim_stale := false;
     sim_clock := 1700000000 |}.

(** A profile page with a hidden "Following" button before a visible
    "Requested" one. *)
Definition layered (stale : bool) : web :=
  {| sim_url := profile_url "erin";
     sim_login_form := false;
     sim_headers :=
       [(profile_url "erin", [("Following", false); ("Requested", true)])];
     sim_clickable := true;
     sim_dialog := false;
     sim_stale := stale;
     sim_clock := 1700000000 |}.

Definition start (w : web) : State web :=
  {| world := w; files := ∅ |}.

End Sim.

(** ** A sample action log

    Lines as [write_jsonl] produces them for a successful follow, and a
    decoder that knows these lines and the line [[]]; every other line is
    taken to be undecodable. *)

Module SampleLog.

Definition dq : string := String (ascii_of_nat 34) EmptyString.

Definition quoted (s : string) : string := dq +:+ s +:+ dq.

Definition follow_line (u : string) : string :=
  "{" +:+ quoted "username" +:+ ": " +:+ quoted u
  +:+ ", " +:+ quoted "mode" +:+ ": " +:+ quoted "follow"
  +:+ ", " +:+ quoted "ts" +:+ ": 1700000000"
  +:+ ", " +:+ quoted "action" +:+ ": " +:+ quoted "follow"
  +:+ ", " +:+ quoted "success" +:+ ": true"
  +:+ ", " +:+ quoted "state_before" +:+ ": " +:+ quoted "follow"
  +:+ ", " +:+ quoted "state_after" +:+ ": " +:+ quoted "following"
  +:+ ", " +:+ quoted "error" +:+ ": null}" +:+ String LF EmptyString.

Definition follow_value (u : string) : json :=
  JObj [("username", JStr u); ("mode", JStr "follow");
        ("ts", JNum (1700000000 # 1)); ("action", JStr "follow");
        ("success", JBool true); ("state_before", JStr "follow");
        ("state_after", JStr "following"); ("error", JNull)].

Definition array_line : string := "[]" +:+ String LF EmptyString.

Definition loads (line : string) : result json :=
  if String.eqb line (follow_line "a") then Ok (follow_value "a")
  else if String.eqb line (follow_line "b") then Ok (follow_value "b")
  else if String.eqb line array_line then Ok (JArr [])
  else Raise (JSONDecodeError "Expecting value").

End SampleLog.

(** * Specification vocabulary

    The notions the statements below are phrased in. *)

(** ** The prober *)

Definition relationship_states : list string :=
  ["follow"; "following"; "requested"; "unavailable"].

(** The state a button text stands for: the text is trimmed and compared
    case-insensitively with the three literals. *)
Definition recognise (t : string) : option string :=
  let label := PyStr.lower (PyStr.strip t) in
  if String.eqb label "follow" then Some "follow"
  else if String.eqb label "following" then Some "following"
  else if String.eqb label "requested" then Some "requested"
  else None.

(** Among the matches of one strategy: the first visibly rendered
    element, else the first match. *)
Definition preferred {E} (vis : E -> bool) (btns : list E) : option E :=
  match List.find vis btns with
  | Some b => Some b
  | None => head btns
  end.

(** What a page that does not change while it is read shows: strategies
    in order, the first one whose preferred button carries a recognisable
    label decides. *)
Fixpoint static_state {E} (page : string -> list E) (vis : E -> bool)
    (lbl : E -> string) (xps : list string) : string :=
  match xps with
  | [] => "unavailable"
  | xp :: rest =>
      match preferred vis (page xp) with
      | Some b =>
          match recognise (lbl b) with
          | Some s => s
          | None => static_state page vis lbl rest
          end
      | None => static_state page vis lbl rest
      end
  end.

(** No strategy of [xps] yields a recognisable label, each one being
    tried in the world the previous one left. *)
Inductive all_unrecognised {W E} (rt : Runtime W E)
    : list string -> W -> W -> Prop :=
| unrecognised_nil w : all_unrecognised rt [] w w
| unrecognised_cons xp rest w w1 w2 :
    probe_candidate rt xp w = (Ok None, w1) ->
    all_unrecognised rt rest w1 w2 ->
    all_unrecognised rt (xp :: rest) w w2.


(** ** The per-user table of section 4.4 *)

(** The success criterion of a row: a fixed value, or "the click went
    through and the state probed afterwards is one of [after]". *)
Inductive criterion : Type :=
| Always (b : bool)
| ClickAnd (after : list string).

Record row : Type := {
  row_mode : string;
  row_before : string;
  row_criterion : criterion;
  row_tag : string
}.

(** The rows of the table that start from a probed state. *)
Definition table : list row :=
  [ {| row_mode := "follow"; row_before := "follow";
       row_criterion := ClickAnd ["following"; "requested"];
       row_tag := "follow" |};
    {| row_mode := "follow"; row_before := "following";
       row_criterion := Always true; row_tag := "noop_already_following" |};
    {| row_mode := "follow"; row_before := "requested";
       row_criterion := Always true; row_tag := "noop_already_following" |};
    {| row_mode := "follow"; row_before := "unavailable";
       row_criterion := Always false; row_tag := "noop_unavailable" |};
    {| row_mode := "unfollow"; row_before := "following";
       row_criterion := ClickAnd ["follow"; "unavailable"];
       row_tag := "unfollow" |};
    {| row_mode := "unfollow"; row_before := "follow";
       row_criterion := Always true; row_tag := "noop_not_following" |};
    {| row_mode := "unfollow"; row_before := "requested";
       row_criterion := Always true; row_tag := "noop_not_following" |};
    {| row_mode := "unfollow"; row_before := "unavailable";
       row_criterion := Always false; row_tag := "noop_unavailable" |} ].

Definition table_row (mode before : string) : option row :=
  List.find (fun r => String.eqb (row_mode r) mode
                      && String.eqb (row_before r) before) table.

Definition meets (c : criterion) (click_ok : bool) (state_after : string) : bool :=
  match c with
  | Always b => b
  | ClickAnd after => click_ok && str_in state_after after
  end.

(** The tag the code records for a row: the row's tag, except that a row
    with a click whose click failed is tagged [noop_<tag>_click_failed]. *)
Definition recorded_tag (r : row) (click_ok : bool) : string :=
  match row_criterion r with
  | Always _ => row_tag r
  | ClickAnd _ =>
      if click_ok then row_tag r else "noop_" +:+ row_tag r +:+ "_click_failed"
  end.

(** The click helper [process_user] uses in a mode. *)
Definition click_for {W E} (rt : Runtime W E) (mode : string) : M W bool :=
  if String.eqb mode "follow" then click_follow rt else click_unfollow rt.

(** ** The top-level loop *)

(** The number of records that count toward max-actions. *)
Definition counted (recs : list ActionRecord) : Z :=
  Z.of_nat (length (List.filter counts_toward_max recs)).

(** ** Input resolution *)

(** What the loader makes of one entry: surrounding whitespace is trimmed,
    then every leading "@" is removed. *)
Definition normalise (entry : string) : string :=
  PyStr.lstrip_at (PyStr.strip entry).

(** The reading "at most one leading @ is stripped". *)
Definition strip_one_at (s : string) : string :=
  match s with
  | String c r => if Ascii.eqb c "@"%char then r else s
  | EmptyString => s
  end.

(** The first cell of every non-empty row. *)
Fixpoint first_cells (rows : list (list string)) : list string :=
  match rows with
  | [] => []
  | [] :: rest => first_cells rest
  | (cell :: _) :: rest => cell :: first_cells rest
  end.

(** The entries of an input file: the first cells of a CSV or TSV file,
    the lines of any other file, nothing when the file is missing. *)
Definition raw_entries (csv_rows : string -> result (list (list string)))
    (path : PathView) : result (list string) :=
  if negb (path_exists path) then Ok []
  else if str_in (PyStr.lower (path_suffix path)) [".csv"; ".tsv"] then
    match csv_rows (path_text path) with
    | Ok rows => Ok (first_cells rows)
    | Raise e => Raise e
    end
  else Ok (file_lines (path_text path)).

(** Each element once, at the place of its first occurrence. *)
Fixpoint first_occurrences (l : list string) : list string :=
  match l with
  | [] => []
  | x :: rest =>
      x :: List.filter (fun y => negb (String.eqb y x)) (first_occurrences rest)
  end.

(** Each key once, at the place of its last occurrence. *)
Fixpoint last_occurrences (l : list json) : list json :=
  match l with
  | [] => []
  | x :: rest =>
      if existsb (PyVal.key_eqb x) rest then last_occurrences rest
      else x :: last_occurrences rest
  end.

(** The [n] most recent entries of a list ordered oldest first. *)
Definition most_recent {A} (n : nat) (l : list A) : list A :=
  drop (length l - n)%nat l.

(** The lines of the example: [@alice], [bob], [alice], a blank line and
    [carol]. *)
Definition example_list : PathView :=
  {| path_exists := true; path_suffix := ".txt";
     path_text := "@alice" +:+ String LF ("bob" +:+ String LF ("alice"
                  +:+ String LF (" " +:+ String LF "carol"))) |}.

(** A CSV file with the rows [@alice,1], an empty row, [ bob ,2] and
    [alice,3], and the rows the CSV reader gives for it. *)
Definition example_sheet : PathView :=
  {| path_exists := true; path_suffix := ".CSV";
     path_text := "@alice,1" +:+ String LF (String LF (" bob ,2"
                  +:+ String LF "alice,3")) |}.

Definition example_rows (text : string) : result (list (list string)) :=
  if String.eqb text (path_text example_sheet)
  then Ok [["@alice"; "1"]; []; [" bob "; "2"]; ["alice"; "3"]]
  else Raise (CsvError "Could not determine delimiter").

(** ** Further vocabulary *)

(** [set(read_usernames(Path(args.whitelist))) if args.whitelist else None]
    of [main]; [whitelist] is [None] when the option is absent. *)
Definition whitelist_set (csv_rows : string -> result (list (list string)))
    (whitelist : option PathView) : result (option (gset string)) :=
  match whitelist with
  | Some path =>
      match read_usernames csv_rows path with
      | Ok us => Ok (Some (list_to_set us))
      | Raise e => Raise e
      end
  | None => Ok None
  end.

(** The tags of a record that reports success. *)
Definition success_tags : list string :=
  ["skip_whitelisted"; "follow"; "noop_already_following"; "unfollow";
   "noop_not_following"].

(** The tags of a record written after a click was attempted. *)
Definition click_tags : list string :=
  ["follow"; "noop_follow_click_failed"; "unfollow";
   "noop_unfollow_click_failed"].


(** The body of the [try] inside the confirmation loop of
    [click_unfollow]: wait for the button of one locator, pause, click,
    pause. *)
Definition confirm_attempt {W E} (rt : Runtime W E) (cxp : string) : M W bool :=
  bind (wait_clickable rt 5 By_XPATH cxp) (fun cbtn =>
  bind (jitter_sleep rt (2 # 10) (6 # 10)) (fun _ =>
  bind (element_click rt cbtn) (fun _ =>
  bind (jitter_sleep rt (8 # 10) (15 # 10)) (fun _ =>
  ret true)))).

(** A run of the confirmation loop from world [w] that ends in world [w']
    with a confirmation clicked: the attempts on the locators before the
    one that succeeds each raise, and each attempt starts in the world
    the one before it left. *)
Inductive confirm_run {W E} (rt : Runtime W E) : list string -> W -> W -> Prop :=
| confirm_here cxp rest w w' :
    confirm_attempt rt cxp w = (Ok true, w') ->
    confirm_run rt (cxp :: rest) w w'
| confirm_later cxp rest w e w1 w' :
    confirm_attempt rt cxp w = (Raise e, w1) ->
    confirm_run rt rest w1 w' ->
    confirm_run rt (cxp :: rest) w w'.

Definition opt_value (o : option string) : json :=
  match o with
  | Some s => JStr s
  | None => JNull
  end.

(** The value [json.loads] gives back for the line [json.dumps] writes
    for a record. *)
Definition record_value (r : ActionRecord) : json :=
  JObj [("username", JStr (rec_username r)); ("mode", JStr (rec_mode r));
        ("ts", JNum (inject_Z (rec_ts r))); ("action", opt_value (rec_action r));
        ("success", JBool (rec_success r));
        ("state_before", opt_value (rec_state_before r));
        ("state_after", opt_value (rec_state_after r));
        ("error", opt_value (rec_error r))].

(** A record of a follow that went through, for a named user. *)
Definition successful_follow (r : ActionRecord) : bool :=
  match rec_action r with
  | Some a => String.eqb a "follow"
  | None => false
  end
  && rec_success r && PyStr.truthy (rec_username r).

(** A line the scan of the log passes over: one that does not decode, or
    one that decodes to an object that is not a successful follow. *)
Definition ignorable (json_loads : string -> result json) (line : string) : bool :=
  match json_loads line with
  | Raise (JSONDecodeError _) => true
  | Ok (JObj members) => negb (is_followed members)
  | _ => false
  end.

(** No key of the list equals, as a Python value, a key before it. *)
Definition distinct_keys (keys : list json) : Prop :=
  ForallOrdPairs (fun a b => PyVal.key_eqb b a = false) keys.

(** What a limit leaves of a list ordered oldest first: nothing is cut
    for no limit or a limit of 0, a positive limit keeps that many of the
    most recent entries, and a negative limit [-k] drops the [k] oldest. *)
Definition apply_limit {A} (limit : option Z) (l : list A) : list A :=
  match limit with
  | None => l
  | Some n =>
      if n =? 0 then l
      else if 0 <? n then most_recent (Z.to_nat n) l
      else drop (Z.to_nat (- n)) l
  end.

(** The record whose line is [SampleLog.follow_line u]. *)
Definition sample_record (u : string) : ActionRecord :=
  {| rec_username := u; rec_mode := "follow"; rec_ts := 1700000000;
     rec_action := Some "follow"; rec_success := true;
     rec_state_before := Some "follow"; rec_state_after := Some "following";
     rec_error := None |}.

(** * Properties *)

(** ** The prober *)

Section ProberFacts.
Context {W E : Type} (rt : Runtime W E).

Lemma probe_body_range xp w r w' :
  probe_body rt xp w = (Ok r, w') ->
  r = None \/ r = Some "follow" \/ r = Some "following" \/ r = Some "requested".
Proof.
  unfold probe_body, bind, ret.
  destruct (driver_find_elements rt By_XPATH xp w) as [[btns|e] w1]; [|discriminate].
  destruct btns as [|b0 bs]; [intros [= <- _]; auto|].
  destruct (next_displayed rt (b0 :: bs) b0 w1) as [[btn|e] w2]; [|discriminate].
  destruct (element_text rt btn w2) as [[t|e] w3]; [|discriminate].
  repeat match goal with
         | |- context [if ?c then _ else _] => destruct c
         end; intros [= <- _]; auto.
Qed.

Lemma probe_candidate_total xp w :
  exists r w', probe_candidate rt xp w = (Ok r, w')
    /\ (r = None \/ r = Some "follow" \/ r = Some "following"
        \/ r = Some "requested").
Proof.
  unfold probe_candidate, try_except.
  destruct (probe_body rt xp w) as [[r|e] w'] eqn:Hb.
  - exists r, w'. split; [reflexivity|]. eapply probe_body_range, Hb.
  - exists None, w'. split; [reflexivity|]. auto.
Qed.

Lemma get_follow_state_from_total xps w :
  exists s w', get_follow_state_from rt xps w = (Ok s, w')
    /\ In s relationship_states.
Proof.
  revert w. induction xps as [|xp rest IH]; intros w; simpl.
  - exists "unavailable", w. split; [reflexivity|]. simpl; auto.
  - unfold bind.
    destruct (probe_candidate_total xp w) as (r & w1 & -> & Hr).
    destruct Hr as [-> | [-> | [-> | ->]]]; try apply IH;
      eexists _, w1; (split; [reflexivity|]); simpl; auto.
Qed.

Lemma get_follow_state_from_swallow xp rest w e w1 :
  probe_body rt xp w = (Raise e, w1) ->
  get_follow_state_from rt (xp :: rest) w = get_follow_state_from rt rest w1.
Proof.
  intros Hb. simpl. unfold bind, probe_candidate, try_except.
  rewrite Hb. reflexivity.
Qed.

Lemma get_follow_state_from_unrecognised xps w w' :
  get_follow_state_from rt xps w = (Ok "unavailable", w')
  <-> all_unrecognised rt xps w w'.
Proof.
  split.
  - revert w. induction xps as [|xp rest IH]; intros w; simpl.
    + intros [= <-]. constructor.
    + unfold bind.
      destruct (probe_candidate_total xp w) as (r & w1 & Hp & Hr).
      rewrite Hp.
      destruct Hr as [-> | [-> | [-> | ->]]]; try discriminate.
      intros Hrest. econstructor; [exact Hp | apply IH, Hrest].
  - induction 1 as [w0|xp rest w0 w1 w2 Hp _ IH]; simpl; [reflexivity|].
    unfold bind. rewrite Hp. exact IH.
Qed.

Section StaticPage.
Variables (page : string -> list E) (vis : E -> bool) (lbl : E -> string).
Variable w : W.
Hypothesis find_static :
  forall xp, driver_find_elements rt By_XPATH xp w = (Ok (page xp), w).
Hypothesis displayed_static :
  forall b, element_is_displayed rt b w = (Ok (vis b), w).
Hypothesis text_static :
  forall b, element_text rt b w = (Ok (lbl b), w).

Lemma next_displayed_static btns d :
  next_displayed rt btns d w = (Ok (default d (List.find vis btns)), w).
Proof.
  induction btns as [|b rest IH]; simpl; [reflexivity|].
  unfold bind. rewrite displayed_static.
  destruct (vis b); [reflexivity|exact IH].
Qed.

Lemma probe_candidate_static xp :
  probe_candidate rt xp w
  = (Ok (b ← preferred vis (page xp); recognise (lbl b)), w).
Proof.
  unfold probe_candidate, try_except, probe_body, bind.
  rewrite find_static. unfold preferred.
  destruct (page xp) as [|b0 bs] eqn:Hp; [reflexivity|].
  rewrite next_displayed_static, text_static.
  destruct (List.find vis (b0 :: bs)) as [b|]; simpl;
    unfold recognise;
    repeat match goal with
           | |- context [if ?c then _ else _] => destruct c
           end; reflexivity.
Qed.

Lemma get_follow_state_from_static xps :
  get_follow_state_from rt xps w = (Ok (static_state page vis lbl xps), w).
Proof.
  induction xps as [|xp rest IH]; simpl; [reflexivity|].
  unfold bind. rewrite probe_candidate_static.
  destruct (preferred vis (page xp)) as [b|]; simpl; [|exact IH].
  destruct (recognise (lbl b)); [reflexivity|exact IH].
Qed.
End StaticPage.

End ProberFacts.

(** C7. [get_follow_state] is total: on every runtime and in every world
    it returns, without raising, one of "follow", "following", "requested"
    and "unavailable"; an exception inside one strategy is swallowed and
    the next strategy is tried; the result is "unavailable" exactly when no
    strategy yields a recognisable label; and on a page that holds still
    while it is read, each strategy looks at its first visibly rendered
    match, or at its first match when none is visible. *)
Theorem get_follow_state_total {W E} (rt : Runtime W E) (w : W) :
  (exists s w', get_follow_state rt w = (Ok s, w') /\ In s relationship_states)
  /\ (forall xp rest e w1,
        probe_body rt xp w = (Raise e, w1) ->
        get_follow_state_from rt (xp :: rest) w
        = get_follow_state_from rt rest w1)
  /\ (forall w',
        get_follow_state rt w = (Ok "unavailable", w')
        <-> all_unrecognised rt candidates w w')
  /\ (forall page vis lbl,
        (forall xp, driver_find_elements rt By_XPATH xp w = (Ok (page xp), w)) ->
        (forall b, element_is_displayed rt b w = (Ok (vis b), w)) ->
        (forall b, element_text rt b w = (Ok (lbl b), w)) ->
        get_follow_state rt w = (Ok (static_state page vis lbl candidates), w)).
Proof.
  unfold get_follow_state.
  split; [apply (get_follow_state_from_total rt candidates w)|].
  split; [intros xp rest e w1; apply get_follow_state_from_swallow|].
  split; [intros w'; apply get_follow_state_from_unrecognised|].
  intros page vis lbl Hf Hd Ht.
  apply get_follow_state_from_static; assumption.
Qed.

Lemma get_follow_state_total_witness :
  get_follow_state Sim.runtime (Sim.layered false)
  = (Ok "requested", Sim.layered false)
  /\ get_follow_state_from Sim.runtime [xp_following] (Sim.layered true)
     = (Ok "unavailable", Sim.layered true).
Proof.
  split.
  - destruct (get_follow_state_total Sim.runtime (Sim.layered false))
      as (_ & _ & _ & Hstatic).
    rewrite (Hstatic
               (fun xp => Sim.matching xp (Sim.layered false))
               (fun e => match e with Sim.Cta _ v => v | _ => true end)
               (fun e => match e with
                         | Sim.Cta l v => if v then l else ""
                         | _ => ""
                         end));
      [reflexivity | intros; reflexivity ..].
  - destruct (get_follow_state_total Sim.runtime (Sim.layered true))
      as (_ & Hswallow & _).
    rewrite (Hswallow xp_following [] StaleElementReferenceException
               (Sim.layered true)); reflexivity.
Defined.

(** ** Processing one user *)

Section ProcessUserFacts.
Context {W E : Type} (rt : Runtime W E).

Lemma probed_state_range w s w' :
  get_follow_state rt w = (Ok s, w') -> In s relationship_states.
Proof.
  intros Hp.
  destruct (get_follow_state_from_total rt candidates w) as (s0 & w0 & Hs0 & Hin).
  unfold get_follow_state in Hp. rewrite Hp in Hs0.
  injection Hs0 as -> _. exact Hin.
Qed.

Local Opaque get_follow_state click_follow click_unfollow open_profile.

Ltac run_process_user :=
  unfold process_user, process_user_frame, process_user_try, try_except,
    bind, browse, in_frame, in_world, update_rec, get_rec, write_jsonl, ret.

(** C1 (as amended). For mode follow or unfollow, a user that is not
    suppressed by the whitelist and whose profile opens: the record
    written by [process_user] carries the probed state, succeeds exactly
    by the criterion of the table row of (mode, state), and is tagged with
    the row's tag, except that in the two rows with a click the tag is
    [noop_follow_click_failed] or [noop_unfollow_click_failed] when the
    click did not go through. *)
Theorem process_user_table st u mode log wl w1 s w2 ok w3 s' w4 :
  mode = "follow" \/ mode = "unfollow" ->
  in_whitelist wl u && String.eqb mode "unfollow" = false ->
  open_profile rt u (world st) = (Ok tt, w1) ->
  get_follow_state rt w1 = (Ok s, w2) ->
  click_for rt mode w2 = (Ok ok, w3) ->
  get_follow_state rt w3 = (Ok s', w4) ->
  exists row r st',
    table_row mode s = Some row
    /\ process_user rt u mode log wl st = (Ok r, st')
    /\ rec_state_before r = Some s
    /\ rec_action r = Some (recorded_tag row ok)
    /\ rec_success r = meets (row_criterion row) ok s'
    /\ rec_error r = None
    /\ file_records st' log = file_records st log ++ [r].
Proof.
  intros Hmode Hwl Hopen Hprobe Hclick Hprobe'.
  pose proof (probed_state_range _ _ _ Hprobe) as Hs.
  unfold click_for in Hclick.
  destruct Hmode as [-> | ->];
    simpl in Hs; destruct Hs as [<- | [<- | [<- | [<- | []]]]];
    (eexists _, _, _; split; [reflexivity|]);
    run_process_user; rewrite Hwl; simpl; rewrite Hopen; simpl;
    rewrite Hprobe; simpl in Hclick |- *;
    rewrite ?Hclick; simpl; rewrite ?Hprobe'; simpl;
    (split; [reflexivity|]); simpl;
    unfold file_records; simpl; rewrite lookup_insert_eq; simpl;
    destruct ok; repeat split; reflexivity.
Qed.

Ltac split_runs :=
  repeat (simpl;
          match goal with
          | |- context [open_profile rt ?u ?w] =>
              destruct (open_profile rt u w) as [[[]|?] ?]
          | |- context [get_follow_state rt ?w] =>
              destruct (get_follow_state rt w) as [[?|?] ?]
          | |- context [click_follow rt ?w] =>
              destruct (click_follow rt w) as [[?|?] ?]
          | |- context [click_unfollow rt ?w] =>
              destruct (click_unfollow rt w) as [[?|?] ?]
          | |- context [if ?c then _ else _] => destruct c
          end).

(** [process_user] never raises and appends exactly the record it
    returns to the log, whatever the browser does. *)
Lemma process_user_total st u mode log wl :
  exists r st',
    process_user rt u mode log wl st = (Ok r, st')
    /\ files st' = <[log := file_records st log ++ [r]]> (files st)
    /\ rec_username r = u.
Proof.
  run_process_user. split_runs;
    (eexists _, _; split; [reflexivity|]; split; reflexivity).
Qed.

Lemma process_user_appends st u mode log wl r st' :
  process_user rt u mode log wl st = (Ok r, st') ->
  file_records st' log = file_records st log ++ [r] /\ rec_username r = u.
Proof.
  intros Hrun.
  destruct (process_user_total st u mode log wl) as (r0 & st0 & Hr0 & Hf & Hu).
  rewrite Hrun in Hr0. injection Hr0 as <- <-.
  split; [|exact Hu].
  unfold file_records at 1. rewrite Hf, lookup_insert_eq. reflexivity.
Qed.

Lemma process_user_whitelisted st u log (wl : gset string) :
  u ∈ wl ->
  let r := {| rec_username := u; rec_mode := "unfollow";
              rec_ts := time_now rt (world st);
              rec_action := Some "skip_whitelisted"; rec_success := true;
              rec_state_before := None; rec_state_after := None;
              rec_error := None |} in
  process_user rt u "unfollow" log (Some wl) st
  = (Ok r, {| world := world st;
              files := <[log := file_records st log ++ [r]]> (files st) |}).
Proof.
  intros Hin r. run_process_user. unfold in_whitelist.
  rewrite (bool_decide_eq_true_2 (wl ≠ ∅)) by set_solver.
  rewrite (bool_decide_eq_true_2 (u ∈ wl)) by assumption.
  reflexivity.
Qed.

End ProcessUserFacts.

Lemma process_user_table_witness :
  exists r st',
    process_user Sim.runtime "alice" "follow" "state/actions.jsonl" None
      (Sim.start (Sim.site true)) = (Ok r, st')
    /\ rec_state_before r = Some "follow"
    /\ rec_action r = Some "follow"
    /\ rec_success r = true.
Proof.
  destruct (process_user_table Sim.runtime (Sim.start (Sim.site true))
              "alice" "follow" "state/actions.jsonl" None
              (Sim.with_url (profile_url "alice") (Sim.site true))
              "follow"
              (Sim.with_url (profile_url "alice") (Sim.site true))
              true
              (Sim.click (Sim.Cta "Follow" true)
                 (Sim.with_url (profile_url "alice") (Sim.site true)))
              "following"
              (Sim.click (Sim.Cta "Follow" true)
                 (Sim.with_url (profile_url "alice") (Sim.site true))))
    as (row & r & st' & Hrow & Hrun & Hb & Ha & Hs & _);
    [left; reflexivity | reflexivity | reflexivity | reflexivity
    | reflexivity | reflexivity |].
  injection Hrow as <-.
  exists r, st'. repeat split; assumption.
Defined.

(** C1, as stated, fails: when the "Follow" button never becomes
    clickable, the record of a user probed as "follow" in follow mode is
    tagged [noop_follow_click_failed], where the table has [follow]. *)
Lemma process_user_table_counterexample :
  exists r st',
    process_user Sim.runtime "alice" "follow" "state/actions.jsonl" None
      (Sim.start (Sim.site false)) = (Ok r, st')
    /\ rec_mode r = "follow"
    /\ rec_state_before r = Some "follow"
    /\ option_map row_tag (table_row "follow" "follow") = Some "follow"
    /\ rec_action r = Some "noop_follow_click_failed"
    /\ rec_action r <> option_map row_tag (table_row "follow" "follow").
Proof.
  eexists _, _. split; [vm_compute; reflexivity|].
  repeat split; try reflexivity. simpl. discriminate.
Qed.

(** C8. In unfollow mode a whitelisted username is recorded as
    [skip_whitelisted] with success, whatever the runtime and whatever the
    page would show: no operation of the runtime other than the clock is
    consulted and the world is left as it was; the only effect is the
    record appended to the log. *)
Theorem whitelisted_unfollow_skipped {W E} (rt : Runtime W E)
    (st : State W) (u log : string) (wl : gset string) :
  u ∈ wl ->
  exists r st',
    process_user rt u "unfollow" log (Some wl) st = (Ok r, st')
    /\ r = {| rec_username := u; rec_mode := "unfollow";
              rec_ts := time_now rt (world st);
              rec_action := Some "skip_whitelisted"; rec_success := true;
              rec_state_before := None; rec_state_after := None;
              rec_error := None |}
    /\ world st' = world st
    /\ files st' = <[log := file_records st log ++ [r]]> (files st).
Proof.
  intros Hin. eexists _, _.
  split; [apply process_user_whitelisted, Hin|].
  repeat split.
Qed.

Lemma whitelisted_unfollow_skipped_witness :
  exists r st',
    process_user Sim.runtime "bob" "unfollow" "state/actions.jsonl"
      (Some {["bob"; "carol"]}) (Sim.start (Sim.site true)) = (Ok r, st')
    /\ rec_action r = Some "skip_whitelisted"
    /\ rec_success r = true
    /\ world st' = Sim.site true.
Proof.
  destruct (whitelisted_unfollow_skipped Sim.runtime (Sim.start (Sim.site true))
              "bob" "state/actions.jsonl" {["bob"; "carol"]})
    as (r & st' & Hrun & Hr & Hw & _); [set_solver|].
  exists r, st'. rewrite Hr at 2 3. repeat split; assumption.
Defined.

(** ** The top-level loop *)

Section LoopFacts.
Context {W E : Type} (rt : Runtime W E).
Variables (mode log : string) (wl : option (gset string)).
Variables (max_actions : Z) (min_wait max_wait : Q).

(** Pacing goes through: the drawn duration is one [time.sleep]
    accepts. *)
Hypothesis pacing_ok :
  forall w, exists w', jitter_sleep rt min_wait max_wait w = (Ok tt, w').

Local Abbreviation loop :=
  (main_loop rt mode log wl max_actions min_wait max_wait).

Lemma counted_cons r recs :
  counted (r :: recs) = (if counts_toward_max r then 1 else 0) + counted recs.
Proof.
  unfold counted. simpl. destruct (counts_toward_max r); simpl; lia.
Qed.

Lemma counts_toward_max_spec r :
  counts_toward_max r = false
  <-> rec_action r = Some "noop_already_following"
      \/ rec_action r = Some "noop_not_following".
Proof.
  unfold counts_toward_max, str_in. destruct (rec_action r) as [a|]; simpl.
  - rewrite negb_false_iff, !orb_false_r, orb_true_iff, !String.eqb_eq.
    split; intros [H|H]; [left|right|left|right]; congruence.
  - split; [discriminate|intros [H|H]; discriminate].
Qed.

Lemma pace_run st :
  exists st', in_world (jitter_sleep rt min_wait max_wait) st = (Ok tt, st')
              /\ files st' = files st.
Proof.
  unfold in_world. destruct (pacing_ok (world st)) as [w' ->].
  eexists. split; reflexivity.
Qed.

(** One round of the loop below the maximum. *)
Lemma loop_step u rest d st r st1 st2 :
  d < max_actions ->
  process_user rt u mode log wl st = (Ok r, st1) ->
  in_world (jitter_sleep rt min_wait max_wait) st1 = (Ok tt, st2) ->
  loop (u :: rest) d st
  = loop rest (d + (if counts_toward_max r then 1 else 0)) st2.
Proof.
  intros Hd Hr Hp. simpl.
  destruct (d >=? max_actions) eqn:Hge; [lia|].
  unfold bind. rewrite Hr, Hp. reflexivity.
Qed.

Lemma loop_run us : forall d st,
  exists done st' recs,
    loop us d st = (Ok done, st')
    /\ file_records st' log = file_records st log ++ recs
    /\ map rec_username recs = take (length recs) us
    /\ done = d + counted recs
    /\ (forall k, (k < length recs)%nat -> d + counted (take k recs) < max_actions)
    /\ ((length recs < length us)%nat -> max_actions <= done).
Proof.
  induction us as [|u rest IH]; intros d st.
  - exists d, st, []. simpl. rewrite app_nil_r.
    repeat split; try reflexivity; unfold counted; simpl; lia.
  - destruct (Z.ltb_spec d max_actions) as [Hlt|Hge].
    + destruct (process_user_total rt st u mode log wl) as (r & st1 & Hr & _).
      destruct (process_user_appends rt _ _ _ _ _ _ _ Hr) as [Hf1 Hu].
      destruct (pace_run st1) as (st2 & Hp & Hf2).
      destruct (IH (d + (if counts_toward_max r then 1 else 0)) st2)
        as (done & st' & recs & Hrun & Hf & Hnames & Hdone & Hpre & Hstop).
      exists done, st', (r :: recs).
      rewrite (loop_step _ _ _ _ _ _ _ Hlt Hr Hp).
      split; [exact Hrun|].
      split.
      { rewrite Hf. unfold file_records at 1. rewrite Hf2.
        fold (file_records st1 log). rewrite Hf1, <- app_assoc. reflexivity. }
      split; [simpl; rewrite Hu, Hnames; reflexivity|].
      split; [rewrite counted_cons; lia|].
      split.
      { intros [|k] Hk; simpl in *.
        - unfold counted; simpl; lia.
        - rewrite counted_cons.
          specialize (Hpre k ltac:(lia)). lia. }
      { simpl. intros Hlen. apply Hstop. lia. }
    + exists d, st, []. simpl.
      destruct (d >=? max_actions) eqn:Hc; [|lia].
      rewrite app_nil_r.
      repeat split; try reflexivity; unfold counted; simpl; lia.
Qed.

(** With a budget of one, a first user found already followed leaves
    the budget untouched and the second user is processed. *)
Lemma loop_noop_then_next u1 u2 rest st r1 st1 :
  max_actions = 1 ->
  process_user rt u1 mode log wl st = (Ok r1, st1) ->
  rec_action r1 = Some "noop_already_following" ->
  exists done st' r2 more,
    loop (u1 :: u2 :: rest) 0 st = (Ok done, st')
    /\ file_records st' log = file_records st log ++ r1 :: r2 :: more
    /\ rec_username r2 = u2.
Proof.
  intros Hmax Hr1 Ha.
  assert (0 < max_actions) as Hlt by lia.
  destruct (process_user_appends rt _ _ _ _ _ _ _ Hr1) as [Hf1 _].
  destruct (pace_run st1) as (st2 & Hp1 & Hf2).
  destruct (process_user_total rt st2 u2 mode log wl) as (r2 & st3 & Hr2 & _).
  destruct (process_user_appends rt _ _ _ _ _ _ _ Hr2) as [Hf3 Hu2].
  destruct (pace_run st3) as (st4 & Hp2 & Hf4).
  destruct (loop_run rest (0 + (if counts_toward_max r2 then 1 else 0)) st4)
    as (done & st' & more & Hrun & Hf & _).
  exists done, st', r2, more.
  rewrite (loop_step _ _ _ _ _ _ _ Hlt Hr1 Hp1).
  assert (counts_toward_max r1 = false) as ->
    by (apply counts_toward_max_spec; auto).
  rewrite (loop_step _ _ _ _ _ _ _ Hlt Hr2 Hp2).
  split; [exact Hrun|]. split; [|exact Hu2].
  rewrite Hf. unfold file_records at 1. rewrite Hf4.
  fold (file_records st3 log). rewrite Hf3.
  unfold file_records at 1. rewrite Hf2.
  fold (file_records st1 log). rewrite Hf1, <- !app_assoc. reflexivity.
Qed.

(** With a budget of one, a first user that is followed uses the budget
    up and the run stops after that user. *)
Lemma loop_follow_then_stop u1 u2 rest st r1 st1 :
  max_actions = 1 ->
  process_user rt u1 mode log wl st = (Ok r1, st1) ->
  rec_action r1 = Some "follow" ->
  exists st',
    loop (u1 :: u2 :: rest) 0 st = (Ok 1, st')
    /\ file_records st' log = file_records st log ++ [r1].
Proof.
  intros Hmax Hr1 Ha.
  assert (0 < max_actions) as Hlt by lia.
  destruct (process_user_appends rt _ _ _ _ _ _ _ Hr1) as [Hf1 _].
  destruct (pace_run st1) as (st2 & Hp1 & Hf2).
  exists st2.
  rewrite (loop_step _ _ _ _ _ _ _ Hlt Hr1 Hp1).
  assert (counts_toward_max r1 = true) as ->
    by (unfold counts_toward_max; rewrite Ha; reflexivity).
  simpl. rewrite Hmax. simpl. split; [reflexivity|].
  unfold file_records at 1. rewrite Hf2. exact Hf1.
Qed.

End LoopFacts.

(** C2. When pacing goes through, the loop of [main] ends normally, the
    records it wrote are those of a prefix of the usernames, in order; the
    counter ends at the number of records whose tag is neither
    [noop_already_following] nor [noop_not_following] (so
    [skip_whitelisted] and failures count); every processed user was
    reached with the counter below max-actions, and users are left over
    only when the counter has reached max-actions.  With max-actions 1, a
    first user recorded as [noop_already_following] is followed by the
    processing of the second user, and a first user recorded as [follow]
    ends the run. *)
Theorem main_loop_counts {W E} (rt : Runtime W E) (mode log : string)
    (wl : option (gset string)) (max_actions : Z) (min_wait max_wait : Q)
    (us : list string) (st : State W) :
  (forall w, exists w', jitter_sleep rt min_wait max_wait w = (Ok tt, w')) ->
  (forall r,
      counts_toward_max r = false
      <-> rec_action r = Some "noop_already_following"
          \/ rec_action r = Some "noop_not_following")
  /\ (exists done st' recs,
        main_loop rt mode log wl max_actions min_wait max_wait us 0 st
        = (Ok done, st')
        /\ file_records st' log = file_records st log ++ recs
        /\ map rec_username recs = take (length recs) us
        /\ done = counted recs
        /\ (forall k, (k < length recs)%nat -> counted (take k recs) < max_actions)
        /\ ((length recs < length us)%nat -> max_actions <= done))
  /\ (forall u1 u2 rest r1 st1,
        max_actions = 1 ->
        us = u1 :: u2 :: rest ->
        process_user rt u1 mode log wl st = (Ok r1, st1) ->
        (rec_action r1 = Some "noop_already_following" ->
         exists done st' r2 more,
           main_loop rt mode log wl max_actions min_wait max_wait us 0 st
           = (Ok done, st')
           /\ file_records st' log = file_records st log ++ r1 :: r2 :: more
           /\ rec_username r2 = u2)
        /\ (rec_action r1 = Some "follow" ->
            exists st',
              main_loop rt mode log wl max_actions min_wait max_wait us 0 st
              = (Ok 1, st')
              /\ file_records st' log = file_records st log ++ [r1])).
Proof.
  intros Hpace.
  split; [apply counts_toward_max_spec|].
  split.
  - destruct (loop_run rt mode log wl max_actions min_wait max_wait Hpace us 0 st)
      as (done & st' & recs & H1 & H2 & H3 & H4 & H5 & H6).
    exists done, st', recs.
    split; [exact H1|]. split; [exact H2|]. split; [exact H3|].
    split; [lia|]. split; [|exact H6].
    intros k Hk. specialize (H5 k Hk). lia.
  - intros u1 u2 rest r1 st1 Hmax -> Hr1. split; intros Ha.
    + eapply loop_noop_then_next; eauto.
    + eapply loop_follow_then_stop; eauto.
Qed.

Lemma main_loop_counts_witness :
  (exists done st' recs,
     main_loop Sim.runtime "follow" "state/actions.jsonl" None 1 (6 # 1) (12 # 1)
       ["bob"; "alice"; "carol"] 0 (Sim.start (Sim.site true)) = (Ok done, st')
     /\ file_records st' "state/actions.jsonl"
        = file_records (Sim.start (Sim.site true)) "state/actions.jsonl" ++ recs
     /\ map rec_username recs = take (length recs) ["bob"; "alice"; "carol"]
     /\ done = counted recs
     /\ (forall k, (k < length recs)%nat -> counted (take k recs) < 1)
     /\ ((length recs < 3)%nat -> 1 <= done))
  /\ (exists done st' r1 r2 more,
        main_loop Sim.runtime "follow" "state/actions.jsonl" None 1 (6 # 1) (12 # 1)
          ["bob"; "alice"; "carol"] 0 (Sim.start (Sim.site true)) = (Ok done, st')
        /\ file_records st' "state/actions.jsonl" = r1 :: r2 :: more
        /\ rec_action r1 = Some "noop_already_following"
        /\ rec_username r2 = "alice")
  /\ (exists st' r1,
        main_loop Sim.runtime "follow" "state/actions.jsonl" None 1 (6 # 1) (12 # 1)
          ["alice"; "bob"] 0 (Sim.start (Sim.site true)) = (Ok 1, st')
        /\ file_records st' "state/actions.jsonl" = [r1]
        /\ rec_action r1 = Some "follow").
Proof.
  assert (forall w : Sim.web,
             exists w', jitter_sleep Sim.runtime (6 # 1) (12 # 1) w = (Ok tt, w'))
    as Hpace by (intros w; exists w; reflexivity).
  split; [|split].
  - exact (proj1 (proj2
      (main_loop_counts Sim.runtime "follow" "state/actions.jsonl" None 1
         (6 # 1) (12 # 1) ["bob"; "alice"; "carol"] (Sim.start (Sim.site true))
         Hpace))).
  - destruct (main_loop_counts Sim.runtime "follow" "state/actions.jsonl" None 1
                (6 # 1) (12 # 1) ["bob"; "alice"; "carol"]
                (Sim.start (Sim.site true)) Hpace) as (_ & _ & Hscenario).
    destruct (process_user Sim.runtime "bob" "follow" "state/actions.jsonl" None
                (Sim.start (Sim.site true))) as [[r1|e] st1] eqn:Hr1;
      [|vm_compute in Hr1; discriminate].
    assert (rec_action r1 = Some "noop_already_following") as Ha
      by (vm_compute in Hr1; injection Hr1 as <- _; reflexivity).
    destruct (Hscenario "bob" "alice" ["carol"] r1 st1 eq_refl eq_refl Hr1)
      as [Hnoop _].
    destruct (Hnoop Ha) as (done & st' & r2 & more & Hrun & Hlog & Hu).
    exists done, st', r1, r2, more. auto.
  - destruct (main_loop_counts Sim.runtime "follow" "state/actions.jsonl" None 1
                (6 # 1) (12 # 1) ["alice"; "bob"]
                (Sim.start (Sim.site true)) Hpace) as (_ & _ & Hscenario).
    destruct (process_user Sim.runtime "alice" "follow" "state/actions.jsonl" None
                (Sim.start (Sim.site true))) as [[r1|e] st1] eqn:Hr1;
      [|vm_compute in Hr1; discriminate].
    assert (rec_action r1 = Some "follow") as Ha
      by (vm_compute in Hr1; injection Hr1 as <- _; reflexivity).
    destruct (Hscenario "alice" "bob" [] r1 st1 eq_refl eq_refl Hr1)
      as [_ Hfollow].
    destruct (Hfollow Ha) as (st' & Hrun & Hlog).
    exists st', r1. auto.
Defined.

(** C9 fails on the code: with max-actions 1 and two users that are
    already followed, both users are processed and two records are
    written, while the summary shows [Processed=1], the minimum of
    max-actions and the length of the list. *)
Theorem summary_miscounts_processed :
  let args := {| args_mode := "follow"; args_max_actions := 1;
                 args_min_wait := 6 # 1; args_max_wait := 12 # 1;
                 args_username := "me"; args_password := "secret";
                 args_log_dir := "state" |} in
  exists summary st',
    main_session Sim.runtime args ["bob"; "carol"] None
      (Sim.start (Sim.site true)) = (Ok summary, st')
    /\ map rec_username (file_records st' (log_path_of args)) = ["bob"; "carol"]
    /\ map rec_action (file_records st' (log_path_of args))
       = [Some "noop_already_following"; Some "noop_already_following"]
    /\ printed_processed summary = 1.
Proof.
  eexists _, _. split; [vm_compute; reflexivity|].
  vm_compute. repeat split.
Qed.

(** ** Logging in *)

(** C5 fails on the code: the timeout of the first wait for the username
    field is swallowed, but the very next statement waits for the same
    field to be clickable outside any [try], so when the field does not
    show up [ig_login] raises that wait's exception. *)
Theorem ig_login_raises_without_username_field {W E} (rt : Runtime W E)
    (username password : string) (w w1 w2 w3 : W) (e1 e2 : exn) :
  driver_get rt "https://www.instagram.com/accounts/login/" w = (Ok tt, w1) ->
  wait_presence rt 30 By_NAME "username" w1 = (Raise e1, w2) ->
  wait_clickable rt 30 By_NAME "username" w2 = (Raise e2, w3) ->
  ig_login rt username password w = (Raise e2, w3).
Proof.
  intros Hget Hpresent Hclickable.
  unfold ig_login, bind, try_except.
  rewrite Hget, Hpresent. unfold ret. rewrite Hclickable. reflexivity.
Qed.

Lemma ig_login_raises_without_username_field_witness :
  ig_login Sim.runtime "me" "secret" (Sim.layered false)
  = (Raise TimeoutException,
     Sim.with_url "https://www.instagram.com/accounts/login/" (Sim.layered false)).
Proof.
  apply (ig_login_raises_without_username_field Sim.runtime "me" "secret"
           (Sim.layered false)
           (Sim.with_url "https://www.instagram.com/accounts/login/"
              (Sim.layered false))
           (Sim.with_url "https://www.instagram.com/accounts/login/"
              (Sim.layered false))
           (Sim.with_url "https://www.instagram.com/accounts/login/"
              (Sim.layered false))
           TimeoutException TimeoutException);
    reflexivity.
Defined.

(** ** Loading usernames *)

Section LoaderFacts.

Lemma filter_ne_absent x l :
  ~ In x l -> List.filter (fun y => negb (String.eqb y x)) l = l.
Proof.
  induction l as [|y l IH]; simpl; [reflexivity|].
  intros Hn. destruct (String.eqb_spec y x) as [->|Hne]; simpl.
  - exfalso. apply Hn. auto.
  - rewrite IH; [reflexivity|]. intros Hin. apply Hn. auto.
Qed.

Lemma first_occurrences_In l x : In x (first_occurrences l) <-> In x l.
Proof.
  induction l as [|y l IH]; simpl; [reflexivity|].
  rewrite filter_In, IH, negb_true_iff, String.eqb_neq.
  destruct (String.eqb_spec x y) as [->|Hne]; [tauto|].
  split; [intros [->|[H _]]; auto | intros [->|H]; auto].
Qed.

Lemma first_occurrences_NoDup l : List.NoDup (first_occurrences l).
Proof.
  induction l as [|y l IH]; simpl; constructor.
  - rewrite filter_In, negb_true_iff, String.eqb_neq. tauto.
  - apply List.NoDup_filter, IH.
Qed.

Lemma filter_swap (p q : string -> bool) l :
  List.filter p (List.filter q l) = List.filter q (List.filter p l).
Proof.
  induction l as [|y l IH]; simpl; [reflexivity|].
  destruct (q y) eqn:Hq, (p y) eqn:Hp; simpl; rewrite ?Hq, ?Hp, IH; reflexivity.
Qed.

Lemma filter_twice (p q : string -> bool) l :
  List.filter p (List.filter q l) = List.filter (fun y => q y && p y) l.
Proof.
  induction l as [|y l IH]; simpl; [reflexivity|].
  destruct (q y) eqn:Hq; simpl; [|exact IH].
  destruct (p y); rewrite IH; reflexivity.
Qed.

Lemma first_occurrences_filter (p : string -> bool) l :
  List.filter p (first_occurrences l) = first_occurrences (List.filter p l).
Proof.
  induction l as [|y l IH]; simpl; [reflexivity|].
  destruct (p y) eqn:Hp; simpl.
  - rewrite filter_swap, IH. reflexivity.
  - rewrite filter_swap, IH. apply filter_ne_absent.
    rewrite first_occurrences_In, filter_In. intros [_ Hy]. congruence.
Qed.

Lemma dedup_loop_spec out : forall seen uniq,
  dedup_loop out seen uniq
  = uniq ++ first_occurrences
              (List.filter (fun u => PyStr.truthy u && bool_decide (u ∉ seen)) out).
Proof.
  induction out as [|u rest IH]; intros seen uniq; simpl.
  - rewrite app_nil_r. reflexivity.
  - destruct (PyStr.truthy u && bool_decide (u ∉ seen)) eqn:Hu; simpl.
    + rewrite IH, <- app_assoc. simpl. do 2 f_equal.
      rewrite first_occurrences_filter, filter_twice. f_equal.
      apply List.filter_ext. intros y.
      destruct (PyStr.truthy y); simpl; [|reflexivity].
      destruct (String.eqb_spec y u) as [->|Hne]; simpl.
      * rewrite andb_false_r. apply bool_decide_eq_false_2. set_solver.
      * rewrite andb_true_r. apply bool_decide_ext.
        rewrite elem_of_union, elem_of_singleton. tauto.
    + apply IH.
Qed.

Lemma dedup_loop_fresh out :
  dedup_loop out ∅ [] = first_occurrences (List.filter PyStr.truthy out).
Proof.
  rewrite dedup_loop_spec. simpl. f_equal. apply List.filter_ext.
  intros y. rewrite bool_decide_eq_true_2 by set_solver. apply andb_true_r.
Qed.

Lemma csv_entries_spec rows : forall out,
  csv_entries rows out = out ++ map normalise (first_cells rows).
Proof.
  induction rows as [|row rest IH]; intros out; simpl.
  - rewrite app_nil_r. reflexivity.
  - destruct row as [|cell cells]; [apply IH|].
    rewrite IH, <- app_assoc. reflexivity.
Qed.

Lemma lstrip_at_empty s : PyStr.truthy s = false -> PyStr.lstrip_at s = "".
Proof.
  unfold PyStr.truthy. rewrite negb_false_iff, String.eqb_eq.
  intros ->. reflexivity.
Qed.

Lemma txt_entries_spec lines : forall out,
  List.filter PyStr.truthy (txt_entries lines out)
  = List.filter PyStr.truthy (out ++ map normalise lines).
Proof.
  induction lines as [|line rest IH]; intros out; simpl.
  - rewrite app_nil_r. reflexivity.
  - destruct (PyStr.truthy (PyStr.strip line)) eqn:Ht.
    + rewrite IH, <- app_assoc. reflexivity.
    + rewrite IH, !List.filter_app. simpl. unfold normalise at 2.
      rewrite (lstrip_at_empty _ Ht). reflexivity.
Qed.

Lemma lstrip_at_idem s : PyStr.lstrip_at (PyStr.lstrip_at s) = PyStr.lstrip_at s.
Proof.
  unfold PyStr.lstrip_at.
  induction s as [|c r IH]; cbn [PyStr.lstrip_by]; [reflexivity|].
  destruct (Ascii.eqb "@" c) eqn:Hc; [exact IH|].
  cbn [PyStr.lstrip_by]. rewrite Hc. reflexivity.
Qed.

Variable csv_rows : string -> result (list (list string)).

Lemma read_usernames_spec path :
  read_usernames csv_rows path
  = match raw_entries csv_rows path with
    | Ok entries =>
        Ok (first_occurrences (List.filter PyStr.truthy (map normalise entries)))
    | Raise e => Raise e
    end.
Proof.
  unfold read_usernames, raw_entries.
  destruct (negb (path_exists path)); [reflexivity|].
  destruct (str_in _ _).
  - destruct (csv_rows (path_text path)) as [rows|e]; [|reflexivity].
    rewrite dedup_loop_fresh, csv_entries_spec. reflexivity.
  - rewrite dedup_loop_fresh, txt_entries_spec. reflexivity.
Qed.

End LoaderFacts.

(** C3 (as amended). The loader trims the surrounding whitespace of every
    entry and then strips all of its leading "@"; it keeps the non-blank
    results, each once, in the order of their first occurrence; it raises
    exactly when the entries of the file cannot be read.  Whenever it
    returns a list, the list has no duplicates and no blank entry, no
    entry of it starts with "@", and its entries are the non-blank
    normalised entries of the file. *)
Theorem read_usernames_normalises
    (csv_rows : string -> result (list (list string))) (path : PathView) :
  read_usernames csv_rows path
  = match raw_entries csv_rows path with
    | Ok entries =>
        Ok (first_occurrences (List.filter PyStr.truthy (map normalise entries)))
    | Raise e => Raise e
    end
  /\ (forall us,
        read_usernames csv_rows path = Ok us ->
        exists entries,
          raw_entries csv_rows path = Ok entries
          /\ List.NoDup us
          /\ (forall u, In u us <-> u <> "" /\ In u (map normalise entries))
          /\ (forall u, In u us -> PyStr.lstrip_at u = u))
  /\ read_usernames csv_rows example_list = Ok ["alice"; "bob"; "carol"].
Proof.
  split; [apply read_usernames_spec|].
  split; [|reflexivity].
  intros us. rewrite read_usernames_spec.
  destruct (raw_entries csv_rows path) as [entries|e]; [|discriminate].
  intros [= <-]. exists entries.
  split; [reflexivity|].
  split; [apply first_occurrences_NoDup|].
  assert (forall u, In u (first_occurrences
                            (List.filter PyStr.truthy (map normalise entries)))
                    <-> u <> "" /\ In u (map normalise entries)) as Hmem.
  { intros u. rewrite first_occurrences_In, filter_In.
    unfold PyStr.truthy. rewrite negb_true_iff, String.eqb_neq. tauto. }
  split; [exact Hmem|].
  intros u Hu. apply Hmem in Hu as [_ Hu].
  apply in_map_iff in Hu as (entry & <- & _).
  apply lstrip_at_idem.
Qed.

Lemma read_usernames_normalises_witness :
  List.NoDup ["alice"; "bob"]
  /\ (forall u, In u ["alice"; "bob"] -> PyStr.lstrip_at u = u).
Proof.
  destruct (read_usernames_normalises example_rows example_sheet)
    as (_ & Hprops & _).
  destruct (Hprops ["alice"; "bob"]) as (entries & _ & Hnd & _ & Hat);
    [reflexivity|].
  split; assumption.
Defined.

(** C3, as stated, fails: an entry with two leading "@" loses both, in a
    plain-text file and in the first column of a CSV file alike. *)
Lemma read_usernames_counterexample :
  let path := {| path_exists := true; path_suffix := ".txt";
                 path_text := "@@alice" |} in
  read_usernames (fun _ => Raise (CsvError "sniff")) path = Ok ["alice"]
  /\ strip_one_at (PyStr.strip "@@alice") = "@alice"
  /\ read_usernames (fun _ => Raise (CsvError "sniff")) path
     <> Ok [strip_one_at (PyStr.strip "@@alice")]
  /\ read_usernames (fun _ => Ok [["@@alice"; "x"]; ["bob"; "y"]])
       {| path_exists := true; path_suffix := ".csv";
          path_text := "@@alice,x" +:+ String LF "bob,y" |}
     = Ok ["alice"; "bob"].
Proof.
  split; [reflexivity|]. split; [reflexivity|].
  split; [vm_compute; discriminate | reflexivity].
Qed.

(** ** Reading the action log back *)

Section LogFacts.

Lemma key_eqb_refl v : PyVal.hashable v = true -> PyVal.key_eqb v v = true.
Proof.
  destruct v as [|b|q|s|items|members]; simpl; try discriminate; intros _.
  - reflexivity.
  - destruct b; reflexivity.
  - apply Qeq_bool_iff. reflexivity.
  - apply String.eqb_refl.
Qed.

(** [dict.fromkeys] keeps the keys it already has and represents every
    element it is given. *)
Lemma fromkeys_complete xs : forall keys res,
  PyVal.fromkeys xs keys = Ok res ->
  (forall k, In k keys -> In k res)
  /\ (forall x, In x xs -> existsb (PyVal.key_eqb x) res = true).
Proof.
  induction xs as [|x rest IH]; intros keys res; simpl.
  - intros [= <-]. split; [auto|intros x []].
  - destruct (PyVal.hashable x) eqn:Hh; [|discriminate].
    destruct (existsb (PyVal.key_eqb x) keys) eqn:Hx; intros Hres;
      destruct (IH _ _ Hres) as [Hkeep Hall]; split.
    + exact Hkeep.
    + intros y [<-|Hy]; [|auto].
      apply existsb_exists in Hx as (k & Hk & Hxk).
      apply existsb_exists. exists k. auto.
    + intros k Hk. apply Hkeep, in_or_app. auto.
    + intros y [<-|Hy]; [|auto].
      apply existsb_exists. exists x. split; [|apply key_eqb_refl, Hh].
      apply Hkeep, in_or_app. right. left. reflexivity.
Qed.

Lemma fromkeys_sound xs : forall keys res,
  PyVal.fromkeys xs keys = Ok res ->
  forall k, In k res -> In k keys \/ In k xs.
Proof.
  induction xs as [|x rest IH]; intros keys res; simpl.
  - intros [= <-] k Hk. auto.
  - destruct (PyVal.hashable x); [|discriminate].
    destruct (existsb (PyVal.key_eqb x) keys); intros Hres k Hk;
      destruct (IH _ _ Hres k Hk) as [Hin|Hin]; auto.
    apply in_app_or in Hin as [Hin|[<-|[]]]; auto.
Qed.

Lemma existsb_key_strings x acc :
  existsb (PyVal.key_eqb (JStr x)) (map JStr acc) = existsb (String.eqb x) acc.
Proof.
  induction acc as [|a acc IH]; simpl; [reflexivity|]. rewrite IH. reflexivity.
Qed.

Lemma fromkeys_strings names : forall acc,
  PyVal.fromkeys (map JStr names) (map JStr acc)
  = Ok (map JStr
          (acc ++ first_occurrences
                    (List.filter
                       (fun y => negb (existsb (String.eqb y) acc)) names))).
Proof.
  induction names as [|x rest IH]; intros acc; simpl.
  - rewrite app_nil_r. reflexivity.
  - rewrite existsb_key_strings.
    destruct (existsb (String.eqb x) acc) eqn:Hx; simpl; [apply IH|].
    replace (map JStr acc ++ [JStr x]) with (map JStr (acc ++ [x]))
      by (rewrite map_app; reflexivity).
    rewrite IH, <- app_assoc. simpl.
    rewrite first_occurrences_filter, filter_twice.
    rewrite (List.filter_ext
               (fun y => negb (existsb (String.eqb y) (acc ++ [x])))
               (fun y => negb (existsb (String.eqb y) acc)
                         && negb (String.eqb y x))); [reflexivity|].
    intros y. rewrite existsb_app. simpl.
    rewrite orb_false_r, negb_orb. reflexivity.
Qed.

Lemma fromkeys_strings_fresh names :
  PyVal.fromkeys (map JStr names) []
  = Ok (map JStr (first_occurrences names)).
Proof.
  change (@nil json) with (map JStr []).
  rewrite fromkeys_strings. simpl. do 3 f_equal.
  induction names as [|x rest IH]; simpl; [reflexivity|]. f_equal. exact IH.
Qed.

Lemma ordpairs_snoc {A} (R : A -> A -> Prop) l x :
  ForallOrdPairs R l -> Forall (fun a => R a x) l ->
  ForallOrdPairs R (l ++ [x]).
Proof.
  induction 1 as [|a l Ha Hl IH]; intros Hx; simpl.
  - constructor; constructor.
  - inversion Hx as [|? ? Hax Hlx]; subst.
    constructor; [|apply IH, Hlx].
    apply Forall_app. split; [exact Ha | constructor; [exact Hax | constructor]].
Qed.

Lemma ordpairs_drop {A} (R : A -> A -> Prop) l : forall n,
  ForallOrdPairs R l -> ForallOrdPairs R (drop n l).
Proof.
  induction l as [|a l IH]; intros [|n] Hl; simpl; try exact Hl.
  inversion Hl; subst. apply IH. assumption.
Qed.

Lemma fromkeys_distinct xs : forall keys res,
  distinct_keys keys ->
  PyVal.fromkeys xs keys = Ok res ->
  distinct_keys res.
Proof.
  induction xs as [|x rest IH]; intros keys res Hd; simpl.
  - intros [= <-]. exact Hd.
  - destruct (PyVal.hashable x); [|discriminate].
    destruct (existsb (PyVal.key_eqb x) keys) eqn:Hx; [apply IH, Hd|].
    apply IH. apply ordpairs_snoc; [exact Hd|].
    apply List.Forall_forall. intros k Hk.
    destruct (PyVal.key_eqb x k) eqn:Hxk; [|reflexivity].
    rewrite <- Hx. symmetry. apply existsb_exists. exists k. auto.
Qed.

Variable json_loads : string -> result json.

Lemma load_last_followed_falsy log limit :
  limit_truthy limit = false ->
  load_last_followed json_loads log limit
  = match log with
    | None => Ok []
    | Some lines =>
        match scan_log json_loads lines [] with
        | Ok followed => PyVal.fromkeys followed []
        | Raise e => Raise e
        end
    end.
Proof.
  intros Hl. unfold load_last_followed.
  destruct log as [lines|]; [|reflexivity].
  destruct (scan_log json_loads lines []) as [followed|e]; [|reflexivity].
  destruct limit as [n|]; [|reflexivity].
  simpl in Hl. rewrite Hl. reflexivity.
Qed.

Lemma scan_log_non_object line rest followed v :
  json_loads line = Ok v ->
  (forall members, v <> JObj members) ->
  scan_log json_loads (line :: rest) followed
  = Raise (AttributeError "object has no attribute 'get'").
Proof.
  intros Hv Hno. simpl. rewrite Hv.
  destruct v; try reflexivity. exfalso. eapply Hno. reflexivity.
Qed.

End LogFacts.

(** C4 fails on the code: [dict.fromkeys] keeps every username at the
    place of its first occurrence.  For a log with successful follows of
    a, b and a again, the code returns [a; b] where keeping the last
    occurrence gives [b; a], and with a limit of one it returns b where
    the most recently followed user is a. *)
Theorem load_last_followed_keeps_first_occurrence :
  let log := [SampleLog.follow_line "a"; SampleLog.follow_line "b";
              SampleLog.follow_line "a"] in
  scan_log SampleLog.loads log [] = Ok [JStr "a"; JStr "b"; JStr "a"]
  /\ load_last_followed SampleLog.loads (Some log) None
     = Ok [JStr "a"; JStr "b"]
  /\ last_occurrences [JStr "a"; JStr "b"; JStr "a"] = [JStr "b"; JStr "a"]
  /\ load_last_followed SampleLog.loads (Some log) (Some 1) = Ok [JStr "b"]
  /\ most_recent 1 (last_occurrences [JStr "a"; JStr "b"; JStr "a"])
     = [JStr "a"].
Proof. vm_compute. repeat split. Qed.

(** C6 fails on the code: only [json.JSONDecodeError] is caught, so a
    line that decodes to something other than an object makes [rec.get]
    raise [AttributeError] and the read is aborted. *)
Theorem load_last_followed_aborts_on_non_object
    (json_loads : string -> result json) (line : string) (rest : list string)
    (limit : option Z) (v : json) :
  json_loads line = Ok v ->
  (forall members, v <> JObj members) ->
  load_last_followed json_loads (Some (line :: rest)) limit
  = Raise (AttributeError "object has no attribute 'get'").
Proof.
  intros Hv Hno. unfold load_last_followed.
  rewrite (scan_log_non_object json_loads line rest [] v Hv Hno). reflexivity.
Qed.

Lemma load_last_followed_aborts_on_non_object_witness :
  load_last_followed SampleLog.loads
    (Some [SampleLog.array_line; SampleLog.follow_line "a"]) None
  = Raise (AttributeError "object has no attribute 'get'").
Proof.
  apply (load_last_followed_aborts_on_non_object SampleLog.loads
           SampleLog.array_line [SampleLog.follow_line "a"] None (JArr []));
    [reflexivity | discriminate].
Defined.

(** C10. A limit of [None] or 0 is no limit: [load_last_followed] then
    returns what it returns without a limit, namely the deduplication of
    all the usernames collected from the log.  The list returned has no
    repeated user, every collected username is represented in it, and it
    holds nothing but collected usernames; when the usernames are
    strings it is the list of their first occurrences, in order. *)
Theorem load_last_followed_zero_limit
    (json_loads : string -> result json) (log : option (list string))
    (limit : option Z) :
  limit = None \/ limit = Some 0 ->
  load_last_followed json_loads log limit
  = load_last_followed json_loads log None
  /\ (forall lines followed,
        log = Some lines ->
        scan_log json_loads lines [] = Ok followed ->
        load_last_followed json_loads log limit = PyVal.fromkeys followed []
        /\ (forall keys,
              load_last_followed json_loads log limit = Ok keys ->
              distinct_keys keys
              /\ (forall v, In v followed ->
                            existsb (PyVal.key_eqb v) keys = true)
              /\ (forall k, In k keys -> In k followed))
        /\ (forall names,
              followed = map JStr names ->
              load_last_followed json_loads log limit
              = Ok (map JStr (first_occurrences names)))).
Proof.
  intros Hlimit.
  assert (limit_truthy limit = false) as Hfalsy
    by (destruct Hlimit as [-> | ->]; reflexivity).
  split.
  - rewrite !load_last_followed_falsy by (exact Hfalsy || reflexivity).
    reflexivity.
  - intros lines followed -> Hscan.
    rewrite (load_last_followed_falsy json_loads _ _ Hfalsy), Hscan.
    split; [reflexivity|]. split.
    + intros keys Hkeys. split; [|split].
      * apply (fromkeys_distinct followed [] keys); [constructor | exact Hkeys].
      * intros v Hv. apply (fromkeys_complete followed [] keys Hkeys). exact Hv.
      * intros k Hk.
        destruct (fromkeys_sound followed [] keys Hkeys k Hk) as [[]|Hin].
        exact Hin.
    + intros names ->. apply fromkeys_strings_fresh.
Qed.

Lemma load_last_followed_zero_limit_witness :
  load_last_followed SampleLog.loads
    (Some [SampleLog.follow_line "a"; SampleLog.follow_line "b"]) (Some 0)
  = Ok [JStr "a"; JStr "b"].
Proof.
  destruct (load_last_followed_zero_limit SampleLog.loads
              (Some [SampleLog.follow_line "a"; SampleLog.follow_line "b"])
              (Some 0)) as [-> _]; [right; reflexivity|].
  reflexivity.
Defined.

(** * Further properties *)

(** ** Records written by [process_user] *)

Section RecordFacts.
Context {W E : Type} (rt : Runtime W E).

Local Opaque get_follow_state click_follow click_unfollow open_profile.

Ltac unfold_process_user :=
  unfold process_user, process_user_frame, process_user_try, try_except,
    bind, browse, in_frame, in_world, update_rec, get_rec, write_jsonl, ret.

Ltac case_runs :=
  repeat (simpl;
          match goal with
          | |- context [open_profile rt ?u ?w] =>
              destruct (open_profile rt u w) as [[[]|?] ?]
          | |- context [get_follow_state rt ?w] =>
              destruct (get_follow_state rt w) as [[?|?] ?]
          | |- context [click_follow rt ?w] =>
              destruct (click_follow rt w) as [[[|]|?] ?]
          | |- context [click_unfollow rt ?w] =>
              destruct (click_unfollow rt w) as [[[|]|?] ?]
          | |- context [if ?c then _ else _] => destruct c eqn:?
          end).

(** X1. Whatever the browser does, [process_user] returns normally and
    appends exactly one record, the one it returns, to the log at
    [log_path]; the record carries the username, the mode and the time of
    the call, and every other file is left as it was. *)
Theorem process_user_always_logs (st : State W) (u mode log : string)
    (wl : option (gset string)) :
  exists r st',
    process_user rt u mode log wl st = (Ok r, st')
    /\ rec_username r = u
    /\ rec_mode r = mode
    /\ rec_ts r = time_now rt (world st)
    /\ file_records st' log = file_records st log ++ [r]
    /\ (forall path, path <> log -> file_records st' path = file_records st path).
Proof.
  unfold_process_user. case_runs;
    (eexists _, _; split; [reflexivity|]);
    (repeat split; try reflexivity);
    unfold file_records; simpl;
    try (rewrite lookup_insert_eq; reflexivity);
    intros path Hpath; rewrite lookup_insert_ne by congruence; reflexivity.
Qed.

(** X2. Every record [process_user] writes has either an action tag or
    an error, never both and never neither; a record that reports success
    has no error and one of the five tags of a satisfied outcome; and the
    state after is filled in only together with one of the four tags of an
    attempted click. *)
Theorem process_user_record_shape (st : State W) (u mode log : string)
    (wl : option (gset string)) :
  exists r st',
    process_user rt u mode log wl st = (Ok r, st')
    /\ (rec_action r = None <-> rec_error r <> None)
    /\ (rec_success r = true ->
        rec_error r = None
        /\ exists a, rec_action r = Some a /\ In a success_tags)
    /\ (rec_state_after r <> None ->
        exists a, rec_action r = Some a /\ In a click_tags).
Proof.
  unfold_process_user. case_runs;
    (eexists _, _; split; [reflexivity|]); simpl;
    (split; [split; intros; congruence|]);
    (split;
     [intros Hs;
      first [discriminate Hs
            |split; [reflexivity|]; eexists; split; [reflexivity|];
             simpl; auto 10]
     |intros Ha;
      first [congruence
            |eexists; split; [reflexivity|]; simpl; auto 10]]).
Qed.

(** X3. When the profile does not open, the fault is kept on the record:
    the record has no action tag and no state, reports failure, carries
    the [repr] of the exception as its error and is still written, and
    [process_user] returns normally in the world the failed load left. *)
Theorem process_user_keeps_load_fault (st : State W) (u mode log : string)
    (wl : option (gset string)) (e : exn) (w1 : W) :
  in_whitelist wl u && String.eqb mode "unfollow" = false ->
  open_profile rt u (world st) = (Raise e, w1) ->
  let r := {| rec_username := u; rec_mode := mode;
              rec_ts := time_now rt (world st);
              rec_action := None; rec_success := false;
              rec_state_before := None; rec_state_after := None;
              rec_error := Some (repr e) |} in
  process_user rt u mode log wl st
  = (Ok r, {| world := w1;
              files := <[log := file_records st log ++ [r]]> (files st) |}).
Proof.
  intros Hwl Hopen r. unfold_process_user.
  rewrite Hwl. simpl. rewrite Hopen. reflexivity.
Qed.

(** X4. A mode other than "follow" and "unfollow" still loads the
    profile and probes it, then records [unknown_mode:<mode>] as the
    error, with no action tag and no success, and clicks nothing. *)
Theorem process_user_unknown_mode (st : State W) (u mode log : string)
    (wl : option (gset string)) (w1 w2 : W) (s : string) :
  mode <> "follow" ->
  mode <> "unfollow" ->
  open_profile rt u (world st) = (Ok tt, w1) ->
  get_follow_state rt w1 = (Ok s, w2) ->
  let r := {| rec_username := u; rec_mode := mode;
              rec_ts := time_now rt (world st);
              rec_action := None; rec_success := false;
              rec_state_before := Some s; rec_state_after := None;
              rec_error := Some ("unknown_mode:" +:+ mode) |} in
  process_user rt u mode log wl st
  = (Ok r, {| world := w2;
              files := <[log := file_records st log ++ [r]]> (files st) |}).
Proof.
  intros Hf Hu Hopen Hprobe r. unfold_process_user.
  apply String.eqb_neq in Hf, Hu.
  rewrite Hu, andb_false_r. simpl. rewrite Hopen. simpl. rewrite Hprobe.
  simpl. rewrite ?Hf, ?Hu. reflexivity.
Qed.

(** X5. When the probed state needs no action in the mode at hand (any
    state but "follow" in follow mode, any state but "following" in
    unfollow mode), [process_user] stops at the probe: the world is left
    as the probe left it, so nothing is clicked and nothing is probed
    again, the record has no state after, and its tag is one of the
    no-op tags. *)
Theorem process_user_noop_clicks_nothing (st : State W) (u mode log : string)
    (wl : option (gset string)) (w1 w2 : W) (s : string) :
  (mode = "follow" /\ s <> "follow") \/ (mode = "unfollow" /\ s <> "following") ->
  in_whitelist wl u && String.eqb mode "unfollow" = false ->
  open_profile rt u (world st) = (Ok tt, w1) ->
  get_follow_state rt w1 = (Ok s, w2) ->
  exists r st',
    process_user rt u mode log wl st = (Ok r, st')
    /\ world st' = w2
    /\ rec_state_before r = Some s
    /\ rec_state_after r = None
    /\ exists a, rec_action r = Some a
                 /\ In a ["noop_already_following"; "noop_not_following";
                          "noop_unavailable"].
Proof.
  intros Hcase Hwl Hopen Hprobe. unfold_process_user.
  rewrite Hwl. simpl. rewrite Hopen. simpl. rewrite Hprobe. simpl.
  destruct Hcase as [[-> Hs] | [-> Hs]]; apply String.eqb_neq in Hs;
    simpl; rewrite Hs;
    match goal with
    | |- context [if ?c then _ else _] => destruct c
    end; simpl;
    (eexists _, _; split; [reflexivity|]); simpl;
    (repeat split); eexists; (split; [reflexivity|]); simpl; auto.
Qed.

(** X6. The whitelist is looked at in unfollow mode only: in any other
    mode [process_user] does exactly what it does without a whitelist,
    so a whitelisted user is followed like any other. *)
Theorem process_user_whitelist_only_unfollow (st : State W)
    (u mode log : string) (wl : option (gset string)) :
  mode <> "unfollow" ->
  process_user rt u mode log wl st = process_user rt u mode log None st.
Proof.
  intros Hmode. apply String.eqb_neq in Hmode.
  unfold process_user, process_user_frame, process_user_try.
  rewrite Hmode, !andb_false_r. reflexivity.
Qed.

End RecordFacts.

Lemma process_user_always_logs_witness :
  exists r st',
    process_user Sim.runtime "alice" "follow" "state/actions.jsonl" None
      (Sim.start (Sim.site true)) = (Ok r, st')
    /\ file_records st' "state/actions.jsonl" = [r]
    /\ file_records st' "state/other.jsonl" = [].
Proof.
  destruct (process_user_always_logs Sim.runtime (Sim.start (Sim.site true))
              "alice" "follow" "state/actions.jsonl" None)
    as (r & st' & Hrun & _ & _ & _ & Hlog & Hother).
  exists r, st'. split; [exact Hrun|]. split; [exact Hlog|].
  apply Hother. discriminate.
Defined.

Lemma process_user_record_shape_witness :
  exists r st',
    process_user Sim.runtime "alice" "follow" "state/actions.jsonl" None
      (Sim.start (Sim.site true)) = (Ok r, st')
    /\ rec_success r = true
    /\ rec_error r = None
    /\ exists a, rec_action r = Some a /\ In a success_tags.
Proof.
  destruct (process_user_record_shape Sim.runtime (Sim.start (Sim.site true))
              "alice" "follow" "state/actions.jsonl" None)
    as (r & st' & Hrun & _ & Hsuccess & _).
  assert (rec_success r = true) as Hs
    by (vm_compute in Hrun; injection Hrun as <- _; reflexivity).
  destruct (Hsuccess Hs) as [He Ha].
  exists r, st'. auto.
Defined.

Lemma process_user_keeps_load_fault_witness :
  exists r st',
    process_user Sim.runtime "zed" "unfollow" "state/actions.jsonl" None
      (Sim.start (Sim.site true)) = (Ok r, st')
    /\ rec_action r = None
    /\ rec_error r = Some "TimeoutException()".
Proof.
  eexists _, _. split.
  - apply (process_user_keeps_load_fault Sim.runtime (Sim.start (Sim.site true))
             "zed" "unfollow" "state/actions.jsonl" None TimeoutException
             (Sim.with_url (profile_url "zed") (Sim.site true)));
      reflexivity.
  - split; reflexivity.
Defined.

Lemma process_user_unknown_mode_witness :
  exists r st',
    process_user Sim.runtime "alice" "block" "state/actions.jsonl" None
      (Sim.start (Sim.site true)) = (Ok r, st')
    /\ rec_state_before r = Some "follow"
    /\ rec_error r = Some "unknown_mode:block".
Proof.
  eexists _, _. split.
  - apply (process_user_unknown_mode Sim.runtime (Sim.start (Sim.site true))
             "alice" "block" "state/actions.jsonl" None
             (Sim.with_url (profile_url "alice") (Sim.site true))
             (Sim.with_url (profile_url "alice") (Sim.site true)) "follow");
      [discriminate | discriminate | reflexivity | reflexivity].
  - split; reflexivity.
Defined.

Lemma process_user_noop_clicks_nothing_witness :
  exists r st',
    process_user Sim.runtime "bob" "follow" "state/actions.jsonl" None
      (Sim.start (Sim.site true)) = (Ok r, st')
    /\ world st' = Sim.with_url (profile_url "bob") (Sim.site true)
    /\ rec_state_after r = None.
Proof.
  destruct (process_user_noop_clicks_nothing Sim.runtime
              (Sim.start (Sim.site true)) "bob" "follow" "state/actions.jsonl"
              None (Sim.with_url (profile_url "bob") (Sim.site true))
              (Sim.with_url (profile_url "bob") (Sim.site true)) "following")
    as (r & st' & Hrun & Hw & _ & Ha & _);
    [left; split; [reflexivity | discriminate]
    | reflexivity | reflexivity | reflexivity |].
  exists r, st'. auto.
Defined.

Lemma process_user_whitelist_only_unfollow_witness :
  process_user Sim.runtime "alice" "follow" "state/actions.jsonl"
    (Some {["alice"]}) (Sim.start (Sim.site true))
  = process_user Sim.runtime "alice" "follow" "state/actions.jsonl" None
      (Sim.start (Sim.site true)).
Proof.
  apply (process_user_whitelist_only_unfollow Sim.runtime
           (Sim.start (Sim.site true)) "alice" "follow" "state/actions.jsonl"
           (Some {["alice"]})).
  discriminate.
Defined.

(** ** Click helpers *)

Section ClickFacts.
Context {W E : Type} (rt : Runtime W E).

(** X7. [click_follow] never raises.  It answers [True] only when the
    button became clickable, the pause before the click went through, the
    click was made and the pause after it went through; when the button
    does not become clickable it answers [False] and clicks nothing. *)
Theorem click_follow_sound (w : W) :
  (exists b w', click_follow rt w = (Ok b, w'))
  /\ (forall w',
        click_follow rt w = (Ok true, w') ->
        exists btn w1 w2 w3,
          wait_clickable rt 8 By_XPATH xp_follow w = (Ok btn, w1)
          /\ jitter_sleep rt (4 # 10) (11 # 10) w1 = (Ok tt, w2)
          /\ element_click rt btn w2 = (Ok tt, w3)
          /\ jitter_sleep rt (1 # 1) (18 # 10) w3 = (Ok tt, w'))
  /\ (forall e w1,
        wait_clickable rt 8 By_XPATH xp_follow w = (Raise e, w1) ->
        click_follow rt w = (Ok false, w1)).
Proof.
  unfold click_follow, try_except, bind, ret.
  destruct (wait_clickable rt 8 By_XPATH xp_follow w) as [[btn|e] w1].
  - destruct (jitter_sleep rt (4 # 10) (11 # 10) w1) as [[[]|e] w2] eqn:Hj1.
    + destruct (element_click rt btn w2) as [[[]|e] w3] eqn:Hc.
      * destruct (jitter_sleep rt (1 # 1) (18 # 10) w3) as [[[]|e] w4] eqn:Hj2.
        -- split; [eauto|]. split; [|discriminate].
           intros w' [= <-]. exists btn, w1, w2, w3. auto.
        -- split; [eauto|]. split; discriminate.
      * split; [eauto|]. split; discriminate.
    + split; [eauto|]. split; discriminate.
  - split; [eauto|]. split; [discriminate|].
    intros e0 w0 [= <- <-]. reflexivity.
Qed.

Lemma confirm_unfollow_total cxps : forall w,
  exists b w', confirm_unfollow rt cxps w = (Ok b, w').
Proof.
  induction cxps as [|cxp rest IH]; intros w; simpl; [eexists _, _; reflexivity|].
  unfold bind, try_except, ret.
  destruct (wait_clickable rt 5 By_XPATH cxp w) as [[cbtn|e] w1]; [|apply IH].
  destruct (jitter_sleep rt (2 # 10) (6 # 10) w1) as [[[]|e] w2]; [|apply IH].
  destruct (element_click rt cbtn w2) as [[[]|e] w3]; [|apply IH].
  destruct (jitter_sleep rt (8 # 10) (15 # 10) w3) as [[[]|e] w4]; [|apply IH].
  eexists _, _; reflexivity.
Qed.

Lemma confirm_attempt_clicked cxp wa w' :
  confirm_attempt rt cxp wa = (Ok true, w')
  <-> exists cbtn wb wc wd,
        wait_clickable rt 5 By_XPATH cxp wa = (Ok cbtn, wb)
        /\ jitter_sleep rt (2 # 10) (6 # 10) wb = (Ok tt, wc)
        /\ element_click rt cbtn wc = (Ok tt, wd)
        /\ jitter_sleep rt (8 # 10) (15 # 10) wd = (Ok tt, w').
Proof.
  unfold confirm_attempt, bind, ret. split.
  - destruct (wait_clickable rt 5 By_XPATH cxp wa) as [[cbtn|e] wb];
      [|discriminate].
    destruct (jitter_sleep rt (2 # 10) (6 # 10) wb) as [[[]|e] wc] eqn:Hj;
      [|discriminate].
    destruct (element_click rt cbtn wc) as [[[]|e] wd] eqn:Hc; [|discriminate].
    destruct (jitter_sleep rt (8 # 10) (15 # 10) wd) as [[[]|e] we] eqn:Hk;
      [|discriminate].
    intros [= <-]. exists cbtn, wb, wc, wd. auto.
  - intros (cbtn & wb & wc & wd & -> & -> & -> & ->). reflexivity.
Qed.

Lemma confirm_attempt_true cxp w b w' :
  confirm_attempt rt cxp w = (Ok b, w') -> b = true.
Proof.
  unfold confirm_attempt, bind, ret.
  destruct (wait_clickable rt 5 By_XPATH cxp w) as [[cbtn|e] wb]; [|discriminate].
  destruct (jitter_sleep rt (2 # 10) (6 # 10) wb) as [[[]|e] wc]; [|discriminate].
  destruct (element_click rt cbtn wc) as [[[]|e] wd]; [|discriminate].
  destruct (jitter_sleep rt (8 # 10) (15 # 10) wd) as [[[]|e] we]; [|discriminate].
  intros [= <- _]. reflexivity.
Qed.

Lemma confirm_unfollow_step cxp rest w :
  confirm_unfollow rt (cxp :: rest) w
  = match confirm_attempt rt cxp w with
    | (Ok true, w1) => (Ok true, w1)
    | (Ok false, w1) => confirm_unfollow rt rest w1
    | (Raise _, w1) => confirm_unfollow rt rest w1
    end.
Proof.
  change (confirm_unfollow rt (cxp :: rest) w)
    with (bind (try_except (confirm_attempt rt cxp) (fun _ => ret false))
               (fun clicked : bool =>
                  if clicked then ret true else confirm_unfollow rt rest) w).
  unfold bind, try_except, ret.
  destruct (confirm_attempt rt cxp w) as [[[|]|e] w1]; reflexivity.
Qed.

Lemma confirm_unfollow_run cxps : forall w w',
  confirm_unfollow rt cxps w = (Ok true, w') <-> confirm_run rt cxps w w'.
Proof.
  induction cxps as [|cxp rest IH]; intros w w'.
  - simpl. unfold ret. split; [discriminate | inversion 1].
  - rewrite confirm_unfollow_step.
    destruct (confirm_attempt rt cxp w) as [[b|e] w1] eqn:Ha.
    + pose proof (confirm_attempt_true _ _ _ _ Ha) as Hb. subst b. split.
      * intros [= <-]. apply confirm_here, Ha.
      * inversion 1 as [? ? ? ? Hok|? ? ? ? ? ? Hraise]; subst; congruence.
    + rewrite IH. split.
      * intros Hrest. eapply confirm_later; eassumption.
      * inversion 1 as [? ? ? ? Hok|? ? ? ? ? ? Hraise Hrest]; subst;
          [congruence|].
        rewrite Ha in Hraise. injection Hraise as _ <-. exact Hrest.
Qed.

(** X8. [click_unfollow] never raises.  It answers [True] exactly when,
    in this order and each step in the world the step before left, the
    "Following" button became clickable, the pause went through, the
    button was clicked, the next pause went through, and the confirmation
    loop ended with a confirmation clicked: the locators tried before the
    one that succeeds each failed, and for the one that succeeds the
    "Unfollow" button became clickable, was clicked after a pause, and
    the last pause went through, which gives the final world.  When the
    "Following" button does not become clickable it answers [False] and
    clicks nothing. *)
Theorem click_unfollow_sound (w : W) :
  (exists b w', click_unfollow rt w = (Ok b, w'))
  /\ (forall w',
        click_unfollow rt w = (Ok true, w')
        <-> exists btn w1 w2 w3 w4,
              wait_clickable rt 8 By_XPATH xp_following w = (Ok btn, w1)
              /\ jitter_sleep rt (4 # 10) (11 # 10) w1 = (Ok tt, w2)
              /\ element_click rt btn w2 = (Ok tt, w3)
              /\ jitter_sleep rt (6 # 10) (12 # 10) w3 = (Ok tt, w4)
              /\ confirm_run rt confirm_xps w4 w')
  /\ (forall cxp wa wd',
        confirm_attempt rt cxp wa = (Ok true, wd')
        <-> exists cbtn wb wc wd,
              wait_clickable rt 5 By_XPATH cxp wa = (Ok cbtn, wb)
              /\ jitter_sleep rt (2 # 10) (6 # 10) wb = (Ok tt, wc)
              /\ element_click rt cbtn wc = (Ok tt, wd)
              /\ jitter_sleep rt (8 # 10) (15 # 10) wd = (Ok tt, wd'))
  /\ (forall e w1,
        wait_clickable rt 8 By_XPATH xp_following w = (Raise e, w1) ->
        click_unfollow rt w = (Ok false, w1)).
Proof.
  split; [|split; [|split; [intros; apply confirm_attempt_clicked|]]].
  - unfold click_unfollow, try_except, bind, ret.
    destruct (wait_clickable rt 8 By_XPATH xp_following w) as [[btn|e] w1];
      [|eauto].
    destruct (jitter_sleep rt (4 # 10) (11 # 10) w1) as [[[]|e] w2]; [|eauto].
    destruct (element_click rt btn w2) as [[[]|e] w3]; [|eauto].
    destruct (jitter_sleep rt (6 # 10) (12 # 10) w3) as [[[]|e] w4]; [|eauto].
    destruct (confirm_unfollow_total confirm_xps w4) as (b & w5 & ->). eauto.
  - intros w'. unfold click_unfollow, try_except, bind, ret. split.
    + destruct (wait_clickable rt 8 By_XPATH xp_following w) as [[btn|e] w1];
        [|discriminate].
      destruct (jitter_sleep rt (4 # 10) (11 # 10) w1) as [[[]|e] w2] eqn:Hj1;
        [|discriminate].
      destruct (element_click rt btn w2) as [[[]|e] w3] eqn:Hc; [|discriminate].
      destruct (jitter_sleep rt (6 # 10) (12 # 10) w3) as [[[]|e] w4] eqn:Hj2;
        [|discriminate].
      destruct (confirm_unfollow rt confirm_xps w4) as [[b|e] w5] eqn:Hrun;
        [|discriminate].
      intros [= -> <-]. exists btn, w1, w2, w3, w4.
      repeat (split; [assumption || reflexivity|]).
      apply confirm_unfollow_run, Hrun.
    + intros (btn & w1 & w2 & w3 & w4 & -> & -> & -> & -> & Hrun).
      apply confirm_unfollow_run in Hrun. rewrite Hrun. reflexivity.
  - intros e w1 Hwait. unfold click_unfollow, try_except, bind, ret.
    rewrite Hwait. reflexivity.
Qed.

End ClickFacts.

Lemma click_follow_sound_witness :
  click_follow Sim.runtime (Sim.with_url (profile_url "alice") (Sim.site false))
  = (Ok false, Sim.with_url (profile_url "alice") (Sim.site false)).
Proof.
  apply (proj2 (proj2 (click_follow_sound Sim.runtime
           (Sim.with_url (profile_url "alice") (Sim.site false))))
           TimeoutException).
  reflexivity.
Defined.

Lemma click_unfollow_sound_witness :
  click_unfollow Sim.runtime (Sim.with_url (profile_url "bob") (Sim.site false))
  = (Ok false, Sim.with_url (profile_url "bob") (Sim.site false))
  /\ exists w4 w',
       click_unfollow Sim.runtime
         (Sim.with_url (profile_url "bob") (Sim.site true)) = (Ok true, w')
       /\ confirm_run Sim.runtime confirm_xps w4 w'.
Proof.
  split.
  - apply (proj2 (proj2 (proj2 (click_unfollow_sound Sim.runtime
             (Sim.with_url (profile_url "bob") (Sim.site false)))))
             TimeoutException).
    reflexivity.
  - destruct (click_unfollow Sim.runtime
                (Sim.with_url (profile_url "bob") (Sim.site true)))
      as [[[|]|e] w'] eqn:Hrun; try (vm_compute in Hrun; discriminate).
    destruct (proj1 (proj1 (proj2 (click_unfollow_sound Sim.runtime
                (Sim.with_url (profile_url "bob") (Sim.site true)))) w') Hrun)
      as (btn & w1 & w2 & w3 & w4 & _ & _ & _ & _ & Hconfirm).
    exists w4, w'. split; [reflexivity | exact Hconfirm].
Defined.

(** ** Logging in *)

Section LoginFacts.
Context {W E : Type} (rt : Runtime W E).

Lemma dismiss_dialogs_total texts : forall w,
  exists w', dismiss_dialogs rt texts w = (Ok tt, w').
Proof.
  induction texts as [|text rest IH]; intros w; simpl; [eexists; reflexivity|].
  unfold bind, try_except, ret.
  destruct (driver_find_element rt By_XPATH _ w) as [[btn|e] w1]; [|apply IH].
  destruct (element_click rt btn w1) as [[[]|e] w2]; apply IH.
Qed.

(** X9. The wait after the login form is sent is never fatal by itself:
    as long as reading the current URL and the pauses go through, the
    loop over the attempts returns normally, whether or not an
    authenticated page is ever reached and whatever happens while the
    "Not now" dialogs are dismissed. *)
Theorem login_settle_returns (attempts : list Z) :
  (forall w, exists u w', driver_current_url rt w = (Ok u, w')) ->
  (forall w, exists w', jitter_sleep rt (12 # 10) (24 # 10) w = (Ok tt, w')) ->
  (forall n w, In n attempts -> exists w', backoff_sleep rt n w = (Ok tt, w')) ->
  forall w, exists w', login_settle rt attempts w = (Ok tt, w').
Proof.
  intros Hurl Hjit Hback.
  induction attempts as [|n rest IH]; intros w; simpl; [eexists; reflexivity|].
  unfold bind, ret.
  destruct (Hjit w) as [w1 ->].
  destruct (Hurl w1) as (u1 & w2 & ->).
  assert (forall w3, exists w',
             (let (r, s') := dismiss_dialogs rt ["Not now"; "Not Now"] w3 in
              match r with
              | Ok _ =>
                  let (r0, s'0) := backoff_sleep rt n s' in
                  match r0 with
                  | Ok _ => login_settle rt rest s'0
                  | Raise e => (Raise e, s'0)
                  end
              | Raise e => (Raise e, s')
              end) = (Ok tt, w')) as Hretry.
  { intros w3. destruct (dismiss_dialogs_total ["Not now"; "Not Now"] w3) as [w4 ->].
    destruct (Hback n w4) as [w5 ->]; [left; reflexivity|].
    apply IH. intros m w0 Hm. apply Hback. right. exact Hm. }
  destruct (PyStr.contains "instagram.com/" u1).
  - destruct (Hurl w2) as (u2 & w3 & ->).
    destruct (negb (PyStr.contains "/login" u2)); [eexists; reflexivity|].
    apply Hretry.
  - apply Hretry.
Qed.

End LoginFacts.

Lemma login_settle_returns_witness :
  exists w',
    login_settle Sim.runtime [1; 2; 3; 4; 5]
      (Sim.with_url "https://www.instagram.com/accounts/login/" (Sim.site true))
    = (Ok tt, w').
Proof.
  apply (login_settle_returns Sim.runtime [1; 2; 3; 4; 5]).
  - intros w. exists (Sim.sim_url w), w. reflexivity.
  - intros w. exists w. reflexivity.
  - intros n w Hn. exists w.
    destruct Hn as [<- | [<- | [<- | [<- | [<- | []]]]]]; reflexivity.
Defined.

(** ** Backoff *)




(** ** The session *)

Section SessionFacts.
Context {W E : Type} (rt : Runtime W E).

(** X11. When logging in raises, the run ends with that exception before
    any user is processed: nothing is written to any file, and the driver
    is still asked to quit, a failure of which is swallowed. *)
Theorem main_session_login_failure (args : Args) (usernames : list string)
    (whitelist_set : option (gset string)) (st : State W) (e : exn) (w1 : W) :
  ig_login rt (args_username args) (args_password args) (world st)
  = (Raise e, w1) ->
  main_session rt args usernames whitelist_set st
  = (Raise e, {| world := snd (driver_quit rt w1); files := files st |}).
Proof.
  intros Hlogin.
  unfold main_session, try_finally, bind, in_world, try_except, ret.
  rewrite Hlogin. simpl.
  destruct (driver_quit rt w1) as [[[]|e'] w2]; reflexivity.
Qed.

Lemma counted_le_length recs : counted recs <= Z.of_nat (length recs).
Proof.
  unfold counted. apply inj_le. apply List.filter_length_le.
Qed.

Lemma counted_all recs :
  forallb counts_toward_max recs = true ->
  forall k, counted (take k recs) = Z.of_nat (length (take k recs)).
Proof.
  intros Hall k. unfold counted. f_equal. f_equal.
  apply forallb_filter_id.
  rewrite forallb_forall in Hall |- *.
  intros r Hr. apply Hall.
  rewrite <- (take_drop k recs). apply in_or_app. left. exact Hr.
Qed.

(** X12. When logging in and pacing go through, the session ends
    normally and prints the path of the log it wrote to.  The records it
    wrote are no more than the usernames given, and the number after
    [Processed=] is never more than the number of records written; for a
    non-negative max-actions it is that number whenever every record
    counts toward max-actions.  With a max-actions of zero or less no
    user is processed. *)
Theorem main_session_summary_bound (args : Args) (usernames : list string)
    (whitelist_set : option (gset string)) (st : State W) (w0 : W) :
  (forall w, exists w',
      jitter_sleep rt (args_min_wait args) (args_max_wait args) w = (Ok tt, w')) ->
  ig_login rt (args_username args) (args_password args) (world st) = (Ok tt, w0) ->
  exists summary st' recs,
    main_session rt args usernames whitelist_set st = (Ok summary, st')
    /\ file_records st' (log_path_of args)
       = file_records st (log_path_of args) ++ recs
    /\ printed_logs summary = log_path_of args
    /\ (length recs <= length usernames)%nat
    /\ printed_processed summary <= Z.of_nat (length recs)
    /\ (0 <= args_max_actions args ->
        forallb counts_toward_max recs = true ->
        printed_processed summary = Z.of_nat (length recs))
    /\ (args_max_actions args <= 0 -> recs = []).
Proof.
  intros Hpace Hlogin.
  destruct (loop_run rt (args_mode args) (log_path_of args) whitelist_set
              (args_max_actions args) (args_min_wait args) (args_max_wait args)
              Hpace usernames 0 {| world := w0; files := files st |})
    as (done & st1 & recs & Hrun & Hf & Hnames & Hdone & Hpre & Hstop).
  assert (length recs <= length usernames)%nat as Hlen.
  { apply (f_equal length) in Hnames.
    rewrite length_map, length_take in Hnames. lia. }
  pose proof (counted_le_length recs) as Hcount.
  exists {| printed_processed :=
              Z.min (args_max_actions args) (Z.of_nat (length usernames));
            printed_logs := log_path_of args |},
         {| world := snd (driver_quit rt (world st1)); files := files st1 |},
         recs.
  split.
  { unfold main_session, try_finally, bind, in_world, try_except, ret.
    rewrite Hlogin. rewrite Hrun.
    destruct (driver_quit rt (world st1)) as [[[]|e'] w2]; reflexivity. }
  split; [exact Hf|].
  split; [reflexivity|].
  split; [exact Hlen|].
  cbn [printed_processed].
  split.
  { destruct (Nat.eq_dec (length recs) (length usernames)) as [Heq|Hne].
    - rewrite Heq. lia.
    - specialize (Hstop ltac:(lia)). lia. }
  split.
  { intros Hmax Hall.
    pose proof (counted_all recs Hall) as Hk.
    destruct (Nat.eq_dec (length recs) 0%nat) as [Hz|Hnz].
    - destruct (Nat.eq_dec (length recs) (length usernames)) as [Heq|Hne].
      + rewrite <- Heq, Hz. lia.
      + specialize (Hstop ltac:(lia)).
        specialize (Hk (length recs)). rewrite firstn_all in Hk.
        rewrite Hz. lia.
    - specialize (Hpre (length recs - 1)%nat ltac:(lia)).
      rewrite Hk, length_take in Hpre.
      destruct (Nat.eq_dec (length recs) (length usernames)) as [Heq|Hne].
      + lia.
      + specialize (Hstop ltac:(lia)).
        specialize (Hk (length recs)). rewrite firstn_all in Hk. lia. }
  intros Hmax. destruct recs as [|r recs']; [reflexivity|].
  specialize (Hpre 0%nat ltac:(simpl; lia)).
  unfold counted in Hpre. simpl in Hpre. lia.
Qed.

End SessionFacts.

Lemma main_session_login_failure_witness :
  fst (main_session Sim.runtime
         {| args_mode := "follow"; args_max_actions := 20;
            args_min_wait := 6 # 1; args_max_wait := 12 # 1;
            args_username := "me"; args_password := "secret";
            args_log_dir := "state" |}
         ["alice"] None (Sim.start (Sim.layered false)))
  = Raise TimeoutException.
Proof.
  rewrite (main_session_login_failure Sim.runtime _ ["alice"] None
             (Sim.start (Sim.layered false)) TimeoutException
             (Sim.with_url "https://www.instagram.com/accounts/login/"
                (Sim.layered false)));
    reflexivity.
Defined.

Lemma main_session_summary_bound_witness :
  exists summary st' recs,
    main_session Sim.runtime
      {| args_mode := "follow"; args_max_actions := 1;
         args_min_wait := 6 # 1; args_max_wait := 12 # 1;
         args_username := "me"; args_password := "secret";
         args_log_dir := "state" |}
      ["bob"; "alice"; "carol"] None (Sim.start (Sim.site true))
    = (Ok summary, st')
    /\ file_records st' "state/actions.jsonl" = recs
    /\ printed_processed summary <= Z.of_nat (length recs).
Proof.
  destruct (main_session_summary_bound Sim.runtime
              {| args_mode := "follow"; args_max_actions := 1;
                 args_min_wait := 6 # 1; args_max_wait := 12 # 1;
                 args_username := "me"; args_password := "secret";
                 args_log_dir := "state" |}
              ["bob"; "alice"; "carol"] None (Sim.start (Sim.site true))
              (Sim.with_url "https://www.instagram.com/" (Sim.site true)))
    as (summary & st' & recs & Hrun & Hf & _ & _ & Hle & _).
  - intros w. exists w. reflexivity.
  - reflexivity.
  - exists summary, st', recs. auto.
Defined.

(** ** The whitelist file *)

(** X13. The whitelist built from a file holds exactly the non-blank
    normalised entries of the file.  So a user written in the file with a
    leading "@" or with surrounding whitespace is still skipped in
    unfollow mode, on every runtime and without the world being touched,
    and a user that is not in the file is not suppressed. *)
Theorem whitelist_file_protects
    (csv_rows : string -> result (list (list string))) (path : PathView)
    (entries : list string) :
  raw_entries csv_rows path = Ok entries ->
  exists wl : gset string,
    whitelist_set csv_rows (Some path) = Ok (Some wl)
    /\ (forall u, u ∈ wl <-> u <> "" /\ In u (map normalise entries))
    /\ (forall W E (rt : Runtime W E) (st : State W) (log entry : string),
          In entry entries ->
          normalise entry <> "" ->
          exists r st',
            process_user rt (normalise entry) "unfollow" log (Some wl) st
            = (Ok r, st')
            /\ rec_action r = Some "skip_whitelisted"
            /\ rec_success r = true
            /\ world st' = world st)
    /\ (forall u, ~ In u (map normalise entries) ->
                  in_whitelist (Some wl) u = false).
Proof.
  intros Hraw.
  set (us := first_occurrences
               (List.filter PyStr.truthy (map normalise entries))).
  assert (forall u, u ∈ (list_to_set us : gset string)
                    <-> u <> "" /\ In u (map normalise entries)) as Hmem.
  { intros u. rewrite elem_of_list_to_set, list_elem_of_In.
    unfold us. rewrite first_occurrences_In, filter_In.
    unfold PyStr.truthy. rewrite negb_true_iff, String.eqb_neq. tauto. }
  exists (list_to_set us).
  split.
  { unfold whitelist_set. rewrite read_usernames_spec, Hraw. reflexivity. }
  split; [exact Hmem|].
  split.
  - intros W E rt st log entry Hin Hne.
    eexists _, _. split.
    + apply process_user_whitelisted. apply Hmem.
      split; [exact Hne | apply in_map, Hin].
    + repeat split.
  - intros u Hu. unfold in_whitelist.
    rewrite (bool_decide_eq_false_2 (u ∈ list_to_set us)).
    + apply andb_false_r.
    + rewrite Hmem. tauto.
Qed.

Lemma whitelist_file_protects_witness :
  exists wl : gset string,
    whitelist_set (fun _ => Raise (CsvError "sniff")) (Some example_list)
    = Ok (Some wl)
    /\ ("alice" ∈ wl <-> "alice" <> ""
                         /\ In "alice" (map normalise
                                          (file_lines (path_text example_list)))).
Proof.
  destruct (whitelist_file_protects (fun _ => Raise (CsvError "sniff"))
              example_list (file_lines (path_text example_list)))
    as (wl & Hset & Hmem & _); [reflexivity|].
  exists wl. split; [exact Hset | apply Hmem].
Defined.

(** ** More on reading the log back *)

Section MoreLogFacts.
Variable json_loads : string -> result json.

Lemma scan_log_ignores lines : forall followed,
  scan_log json_loads lines followed
  = scan_log json_loads
      (List.filter (fun l => negb (ignorable json_loads l)) lines) followed.
Proof.
  induction lines as [|line rest IH]; intros followed; simpl; [reflexivity|].
  unfold ignorable at 1.
  destruct (json_loads line) as [v|e] eqn:Hv.
  - destruct v as [|b|q|s|items|members]; simpl; rewrite ?Hv; try reflexivity.
    destruct (is_followed members) eqn:Hf; simpl.
    + rewrite Hv, Hf.
      destruct (PyVal.get members "username"); [apply IH | reflexivity].
    + apply IH.
  - destruct e; simpl; rewrite ?Hv; try reflexivity. apply IH.
Qed.

(** X14. Lines that do not decode, and lines that decode to an object
    that is not a successful follow of a named user, have no effect on
    [load_last_followed]: the result is the one for the log without
    them. *)
Theorem load_last_followed_ignores (lines : list string) (limit : option Z) :
  load_last_followed json_loads (Some lines) limit
  = load_last_followed json_loads
      (Some (List.filter (fun l => negb (ignorable json_loads l)) lines)) limit.
Proof.
  unfold load_last_followed. rewrite <- scan_log_ignores. reflexivity.
Qed.

Lemma slice_from_limit {A} (n : Z) (l : list A) :
  n <> 0 -> PyVal.slice_from (- n) l = apply_limit (Some n) l.
Proof.
  intros Hn. unfold PyVal.slice_from, apply_limit, most_recent.
  destruct (Z.eqb_spec n 0) as [|_]; [contradiction|].
  destruct (Z.ltb_spec 0 n) as [Hpos|Hneg].
  - destruct (Z.ltb_spec (- n) 0) as [_|]; [|lia]. f_equal. lia.
  - destruct (Z.ltb_spec (- n) 0) as [|_]; [lia|].
    destruct (Z.le_gt_cases (- n) (Z.of_nat (length l))) as [Hin|Hout].
    + f_equal. lia.
    + rewrite !drop_ge by lia. reflexivity.
Qed.

(** X15. For a log whose successful follows name the users [names], in
    this order, [load_last_followed] returns every name once, at the
    place of its first occurrence; a positive limit keeps that many names
    from the end of this list, a limit of 0 or [None] keeps them all, and
    a negative limit [-k] drops the first [k] names instead. *)
Theorem load_last_followed_first_occurrences (lines : list string)
    (names : list string) (limit : option Z) :
  scan_log json_loads lines [] = Ok (map JStr names) ->
  load_last_followed json_loads (Some lines) limit
  = Ok (map JStr (apply_limit limit (first_occurrences names))).
Proof.
  intros Hscan. unfold load_last_followed. rewrite Hscan.
  pose proof (fromkeys_strings_fresh names) as Hkeys.
  destruct limit as [n|]; [|exact Hkeys].
  rewrite Hkeys.
  destruct (Z.eqb_spec n 0) as [->|Hn]; [reflexivity|]. simpl.
  rewrite slice_from_limit by exact Hn. f_equal.
  unfold apply_limit, most_recent.
  destruct (n =? 0); [reflexivity|].
  destruct (0 <? n); rewrite ?length_map; apply skipn_map.
Qed.

Section RoundTrip.
Variable json_dumps : ActionRecord -> string.
Variable recs : list ActionRecord.

(** Every record of the log decodes to the value it was written from. *)
Hypothesis loads_dumps :
  forall r, In r recs -> json_loads (json_dumps r) = Ok (record_value r).

Lemma scan_log_records : forall rs followed,
  (forall r, In r rs -> In r recs) ->
  scan_log json_loads (map json_dumps rs) followed
  = Ok (followed
        ++ map JStr (map rec_username (List.filter successful_follow rs))).
Proof.
  induction rs as [|r rest IH]; intros followed Hsub; simpl.
  - rewrite app_nil_r. reflexivity.
  - rewrite loads_dumps by (apply Hsub; left; reflexivity).
    unfold record_value, is_followed, successful_follow. cbn.
    destruct (rec_action r) as [a|]; cbn;
      [destruct (String.eqb a "follow"); cbn|];
      try (apply IH; intros r0 Hr0; apply Hsub; right; exact Hr0).
    destruct (rec_success r); cbn;
      try (apply IH; intros r0 Hr0; apply Hsub; right; exact Hr0).
    destruct (PyStr.truthy (rec_username r)); cbn;
      try (apply IH; intros r0 Hr0; apply Hsub; right; exact Hr0).
    rewrite IH by (intros r0 Hr0; apply Hsub; right; exact Hr0).
    rewrite <- app_assoc. reflexivity.
Qed.

(** X16. Writing records and reading "last followed" back: for a log
    made of the lines of [recs], [load_last_followed] without a limit
    returns the usernames of the records tagged "follow" that report
    success and have a non-empty username, each once, in the order of
    their first occurrence. *)
Theorem log_round_trip :
  load_last_followed json_loads (Some (map json_dumps recs)) None
  = Ok (map JStr
          (first_occurrences
             (map rec_username (List.filter successful_follow recs)))).
Proof.
  unfold load_last_followed.
  rewrite scan_log_records by auto. simpl.
  apply fromkeys_strings_fresh.
Qed.

End RoundTrip.

(** X17. Whatever the log holds and whatever the limit, the list
    [load_last_followed] returns has no repeated user: no entry equals,
    as a Python value, an entry before it. *)
Theorem load_last_followed_distinct (log : option (list string))
    (limit : option Z) (keys : list json) :
  load_last_followed json_loads log limit = Ok keys ->
  distinct_keys keys.
Proof.
  unfold load_last_followed.
  destruct log as [lines|]; [|intros [= <-]; constructor].
  destruct (scan_log json_loads lines []) as [followed|e]; [|discriminate].
  assert (forall res, PyVal.fromkeys followed [] = Ok res -> distinct_keys res)
    as Hfk by (intros res; apply fromkeys_distinct; constructor).
  destruct limit as [n|]; [|apply Hfk].
  destruct (negb (n =? 0)); [|apply Hfk].
  destruct (PyVal.fromkeys followed []) as [res|e]; [|discriminate].
  intros [= <-]. unfold PyVal.slice_from. apply ordpairs_drop, Hfk. reflexivity.
Qed.

End MoreLogFacts.

Lemma load_last_followed_first_occurrences_witness :
  load_last_followed SampleLog.loads
    (Some [SampleLog.follow_line "a"; SampleLog.follow_line "b";
           SampleLog.follow_line "a"]) (Some 1)
  = Ok [JStr "b"].
Proof.
  rewrite (load_last_followed_first_occurrences SampleLog.loads _
             ["a"; "b"; "a"] (Some 1)); reflexivity.
Defined.

Lemma log_round_trip_witness :
  load_last_followed SampleLog.loads
    (Some (map (fun r => SampleLog.follow_line (rec_username r))
               [sample_record "a"; sample_record "b"; sample_record "a"])) None
  = Ok [JStr "a"; JStr "b"].
Proof.
  rewrite (log_round_trip SampleLog.loads
             (fun r => SampleLog.follow_line (rec_username r))
             [sample_record "a"; sample_record "b"; sample_record "a"]).
  - reflexivity.
  - intros r [<- | [<- | [<- | []]]]; reflexivity.
Defined.

Lemma load_last_followed_distinct_witness :
  distinct_keys [JStr "a"; JStr "b"].
Proof.
  apply (load_last_followed_distinct SampleLog.loads
           (Some [SampleLog.follow_line "a"; SampleLog.follow_line "b";
                  SampleLog.follow_line "a"]) None).
  reflexivity.
Defined.
